(** * A shallow embedding of [FinalProject/code/qa_model.py]

    The development models the training and evaluation drivers of the
    [QAModel] class: the three forward passes ([run_train_iter], [get_loss],
    [get_class_prob_dist]), the dataset-level metrics
    ([custom_get_dev_loss], [check_score_cm]) and the training loop
    ([custom_train]).

    The TensorFlow graph, the batcher ([data_batcher.py]), the scorer
    ([utils/score.py]) and the checkpoint writer are collaborators that the
    file only calls; they are gathered in the [Backend] interface below.
    Python exceptions are an explicit [outcome]; the mutable objects the
    methods share (session, savers, summary writer) are threaded as a
    [World].  Log lines, timing and the parameter count printed at the start
    of [custom_train] are left out: they feed nothing back into the run. *)

From Stdlib Require Import ZArith QArith Qfield Floats List String Bool Lia.
From stdpp Require Import gmap.
Import ListNotations.

Local Open Scope Z_scope.
Local Open Scope list_scope.

(** ** Numbers

    The losses and scores are IEEE floating-point scalars.  The model is
    written against a small interface of the operations the source applies
    to them, so that the control structure is proved once for every
    arithmetic.  Two instances are given: binary64 ([float]), used to run
    the code on concrete inputs, and exact rationals ([Q]), used for the
    algebraic identities, which hold in exact arithmetic only. *)

Class Num (F : Type) : Type := {
  lit : Q -> F;            (* a decimal literal such as 0.99 *)
  of_int : Z -> F;         (* float(n), and the promotion of an int operand *)
  fadd : F -> F -> F;
  fsub : F -> F -> F;
  fmul : F -> F -> F;
  fdiv : F -> F -> F;      (* numpy division: total, no exception *)
  flt : F -> F -> bool;    (* x < y *)
  fis_zero : F -> bool     (* x == 0, the falsy test of a number *)
}.

Definition float_of_Z (z : Z) : float :=
  match z with
  | Z0 => PrimFloat.of_uint63 (Uint63.of_Z 0)
  | Zpos _ => PrimFloat.of_uint63 (Uint63.of_Z z)
  | Zneg p => PrimFloat.opp (PrimFloat.of_uint63 (Uint63.of_Z (Zpos p)))
  end.

#[export] Instance Num_float : Num float := {|
  lit q := PrimFloat.div (float_of_Z (Qnum q)) (float_of_Z (Zpos (Qden q)));
  of_int := float_of_Z;
  fadd := PrimFloat.add;
  fsub := PrimFloat.sub;
  fmul := PrimFloat.mul;
  fdiv := PrimFloat.div;
  flt := PrimFloat.ltb;
  fis_zero x := PrimFloat.eqb x (float_of_Z 0)
|}.

#[export] Instance Num_Q : Num Q := {|
  lit q := q;
  of_int := inject_Z;
  fadd := Qplus;
  fsub := Qminus;
  fmul := Qmult;
  fdiv := Qdiv;
  flt x y := negb (Qle_bool y x);
  fis_zero x := Qeq_bool x 0
|}.

(** ** Exceptions and results *)

Inductive exn : Type :=
  | ZeroDivisionError
  | IndexError
  | ValueError
  | InvalidArgumentError
  | IOError (code : nat)
  | ExternalError (code : nat).

Inductive outcome (A : Type) : Type :=
  | Returns (a : A)
  | Raises (e : exn).
Arguments Returns {A} a.
Arguments Raises {A} e.

Definition outcome_map {A B : Type} (f : A -> B) (r : outcome A) : outcome B :=
  match r with
  | Returns a => Returns (f a)
  | Raises e => Raises e
  end.

(** The value a stateful computation produced, the final state dropped. *)
Definition value_of {A W : Type} (r : outcome (A * W)) : outcome A :=
  outcome_map fst r.

(** ** Python and numpy primitives *)

(** [x % y] on ints. *)
Definition py_mod (x y : Z) : outcome Z :=
  if y =? 0 then Raises ZeroDivisionError else Returns (x mod y).

(** [l[i]] on a list: negative indices count from the end. *)
Definition py_index {A : Type} (l : list A) (i : Z) : outcome A :=
  let n := Z.of_nat (List.length l) in
  let j := if i <? 0 then i + n else i in
  if (j <? 0) || (n <=? j) then Raises IndexError
  else match nth_error l (Z.to_nat j) with
       | Some a => Returns a
       | None => Raises IndexError
       end.

(** [l[:k]]: a negative bound counts from the end. *)
Definition py_slice_to {A : Type} (l : list A) (k : Z) : list A :=
  if k <? 0 then firstn (Z.to_nat (Z.of_nat (List.length l) + k)) l
  else firstn (Z.to_nat k) l.

(** [sum(l)] on a list of ints. *)
Definition py_sum_int (l : list Z) : Z := fold_left Z.add l 0.

(** The value of [sum(l)] on a list of numpy scalars: the accumulator starts
    as the Python int [0] and becomes a numpy scalar at the first addition. *)
Inductive pyval (F : Type) : Type :=
  | PyInt (n : Z)
  | NpFloat (x : F).
Arguments PyInt {F} n.
Arguments NpFloat {F} x.

Definition py_add {F : Type} `{Num F} (acc : pyval F) (x : F) : pyval F :=
  match acc with
  | PyInt n => NpFloat (fadd (of_int n) x)
  | NpFloat a => NpFloat (fadd a x)
  end.

Definition py_sum {F : Type} `{Num F} (l : list F) : pyval F :=
  fold_left py_add l (PyInt 0).

(** [a / float(d)]: an int numerator is divided as a Python float and raises
    on a zero divisor; a numpy numerator follows IEEE division. *)
Definition py_truediv {F : Type} `{Num F} (a : pyval F) (d : Z) : outcome F :=
  match a with
  | PyInt n =>
      if d =? 0 then Raises ZeroDivisionError
      else Returns (fdiv (of_int n) (of_int d))
  | NpFloat x => Returns (fdiv x (of_int d))
  end.

(** [np.argmax] of one row: the first index of a largest entry (rows are
    taken to be free of NaN, which numpy would rank highest). *)
Fixpoint argmax_from {F : Type} `{Num F} (best : F) (besti i : nat) (row : list F) : nat :=
  match row with
  | [] => besti
  | x :: rest =>
      if flt best x then argmax_from x i (S i) rest
      else argmax_from best besti (S i) rest
  end.

Definition argmax {F : Type} `{Num F} (row : list F) : outcome Z :=
  match row with
  | [] => Raises ValueError
  | x :: rest => Returns (Z.of_nat (argmax_from x 0%nat 1%nat rest))
  end.

(** [arr.reshape(n,)] of a two-dimensional array. *)
Definition reshape_flat (arr : list (list Z)) (n : nat) : outcome (list Z) :=
  let flat := concat arr in
  if (List.length flat =? n)%nat then Returns flat else Raises ValueError.

(** A list comprehension whose element expression may raise. *)
Fixpoint traverse {A B : Type} (f : A -> outcome B) (l : list A) : outcome (list B) :=
  match l with
  | [] => Returns []
  | a :: rest =>
      match f a with
      | Raises e => Raises e
      | Returns b =>
          match traverse f rest with
          | Raises e => Raises e
          | Returns bs => Returns (b :: bs)
          end
      end
  end.

(** ** Data *)

(** A [Batch] of [data_batcher.py], with the fields this file reads. *)
Record Batch : Type := {
  body_ids : list (list Z);
  body_mask : list (list Z);
  headline_ids : list (list Z);
  headline_mask : list (list Z);
  ans_span : list (list Z);      (* shape (batch_size, 1) *)
  batch_size : nat
}.

(** The placeholders of [add_placeholders]. *)
Inductive placeholder : Type :=
  | context_ids | context_mask | qn_ids | qn_mask | stance | keep_prob.

#[export] Instance placeholder_eq_dec : EqDecision placeholder.
Proof. solve_decision. Defined.

Definition placeholder_code (p : placeholder) : nat :=
  match p with
  | context_ids => 0 | context_mask => 1 | qn_ids => 2
  | qn_mask => 3 | stance => 4 | keep_prob => 5
  end%nat.

Definition placeholder_of_code (n : nat) : placeholder :=
  match n with
  | 0 => context_ids | 1 => context_mask | 2 => qn_ids
  | 3 => qn_mask | 4 => stance | _ => keep_prob
  end%nat.

#[export] Instance placeholder_countable : Countable placeholder :=
  inj_countable' placeholder_code placeholder_of_code
    (fun p => match p with
              | context_ids | context_mask | qn_ids
              | qn_mask | stance | keep_prob => eq_refl
              end).

Inductive feed_value (F : Type) : Type :=
  | Tensor (t : list (list Z))
  | Scalar (x : F).
Arguments Tensor {F} t.
Arguments Scalar {F} x.

(** An [input_feed] dictionary. *)
Abbreviation feed_dict F := (gmap placeholder (feed_value F)).

(** A summary protocol buffer: tagged scalar values. *)
Abbreviation Summary F := (list (string * F)).

(** What [run_train_iter] fetches:
    [[updates, summaries, loss, global_step, param_norm, gradient_norm]]. *)
Record TrainFetch (F : Type) : Type := {
  fetch_summaries : Summary F;
  fetch_loss : F;
  fetch_global_step : Z;
  fetch_param_norm : F;
  fetch_gradient_norm : F
}.
Arguments fetch_summaries {F} _.
Arguments fetch_loss {F} _.
Arguments fetch_global_step {F} _.
Arguments fetch_param_norm {F} _.
Arguments fetch_gradient_norm {F} _.

(** The flags [custom_train] and its callees read. *)
Record Flags (F : Type) : Type := {
  num_epochs : Z;
  print_every : Z;
  save_every : Z;
  eval_every : Z;
  dropout : F;
  keep : nat;
  train_dir : string
}.
Arguments num_epochs {F} _.
Arguments print_every {F} _.
Arguments save_every {F} _.
Arguments eval_every {F} _.
Arguments dropout {F} _.
Arguments keep {F} _.
Arguments train_dir {F} _.

(** ** Collaborators

    What the file calls and does not define.  A graph execution gets the
    session, the feed and the keep probability the feed resolves to, and
    returns the fetched values with the session it leaves behind.
    [variables] observes the trainable state of a session;
    [write_checkpoint] is the disk write of a save, [None] on success.
    [custom_get_batch_generator] stands for the batcher with [word2id], the
    batch size and the two length limits fixed: given the three files and
    [discard_long] it serves a finite sequence of batches, the same one each
    time it is asked. *)
Class Backend (F : Type) : Type := {
  Session : Type;
  Variables : Type;
  variables : Session -> Variables;
  run_train_op : Session -> feed_dict F -> F -> outcome (TrainFetch F * Session);
  run_loss_op : Session -> feed_dict F -> F -> outcome (F * Session);
  run_probdist_op : Session -> feed_dict F -> F -> outcome (list (list F) * Session);
  custom_get_batch_generator : string -> string -> string -> bool -> list Batch;
  report_score : list string -> list string -> outcome F;
  LABELS : list string;
  write_checkpoint : string -> Z -> Session -> option exn
}.

(** Modelled from the spec: the checkpoint manager behind
    [tf.train.Saver(..., max_to_keep=k)], which is TensorFlow's and absent
    from the sources.  A slot keeps snapshots tagged by step, oldest first;
    a save appends one and evicts the oldest entries beyond the slot's
    retention count.  The count is taken literally, also when it is zero. *)
Record Saver (P : Type) : Type := {
  max_to_keep : nat;
  kept : list (Z * P)
}.
Arguments max_to_keep {P} _.
Arguments kept {P} _.

Definition Saver_new {P : Type} (k : nat) : Saver P :=
  {| max_to_keep := k; kept := [] |}.

Definition Saver_save {P : Type} (sv : Saver P) (step : Z) (snapshot : P) : Saver P :=
  let l := kept sv ++ [(step, snapshot)] in
  {| max_to_keep := max_to_keep sv;
     kept := skipn (List.length l - max_to_keep sv) l |}.

(** The steps a slot holds. *)
Definition Saver_steps {P : Type} (sv : Saver P) : list Z := map fst (kept sv).

Inductive slot : Type := MostRecent | BestByScore | BestByLoss.

(** ** The model *)

Section Model.

Context {F : Type} {NumF : Num F} {B : Backend F}.

(** The objects the methods mutate: the TensorFlow session, the three
    savers created by [__init__], the summary writer, and the disk, as the
    record of the checkpoint writes made so far (saver, path and step). *)
Record World : Type := {
  session : Session;
  saver : Saver Variables;
  bestmodel_saver : Saver Variables;
  bestmodel_dev_loss_saver : Saver Variables;
  summary_writer : list (Summary F * Z);
  checkpoints_written : list (slot * string * Z)
}.

Definition set_session (w : World) (s : Session) : World :=
  {| session := s;
     saver := saver w;
     bestmodel_saver := bestmodel_saver w;
     bestmodel_dev_loss_saver := bestmodel_dev_loss_saver w;
     summary_writer := summary_writer w;
     checkpoints_written := checkpoints_written w |}.

Definition get_saver (sl : slot) (w : World) : Saver Variables :=
  match sl with
  | MostRecent => saver w
  | BestByScore => bestmodel_saver w
  | BestByLoss => bestmodel_dev_loss_saver w
  end.

Definition set_saver (sl : slot) (w : World) (sv : Saver Variables) : World :=
  {| session := session w;
     saver := match sl with MostRecent => sv | _ => saver w end;
     bestmodel_saver := match sl with BestByScore => sv | _ => bestmodel_saver w end;
     bestmodel_dev_loss_saver :=
       match sl with BestByLoss => sv | _ => bestmodel_dev_loss_saver w end;
     summary_writer := summary_writer w;
     checkpoints_written := checkpoints_written w |}.

Definition log_checkpoint (w : World) (sl : slot) (path : string) (step : Z) : World :=
  {| session := session w;
     saver := saver w;
     bestmodel_saver := bestmodel_saver w;
     bestmodel_dev_loss_saver := bestmodel_dev_loss_saver w;
     summary_writer := summary_writer w;
     checkpoints_written := checkpoints_written w ++ [(sl, path, step)] |}.

(** Computations over the world that may raise. *)
Definition M (A : Type) : Type := World -> outcome (A * World).

Definition ret {A : Type} (a : A) : M A := fun w => Returns (a, w).

Definition bind {A C : Type} (c : M A) (k : A -> M C) : M C :=
  fun w =>
    match c w with
    | Raises e => Raises e
    | Returns (a, w') => k a w'
    end.

Definition lift {A : Type} (r : outcome A) : M A :=
  fun w =>
    match r with
    | Raises e => Raises e
    | Returns a => Returns (a, w)
    end.

Notation "'let*' x ':=' c 'in' k" := (bind c (fun x => k))
  (at level 10, x pattern, c at level 100, k at level 200).

(** A list of computations run in order, their values collected. *)
Fixpoint mapM {A C : Type} (f : A -> M C) (l : list A) : M (list C) :=
  match l with
  | [] => ret []
  | a :: rest =>
      let* c := f a in
      let* cs := mapM f rest in
      ret (c :: cs)
  end.

(** *** [__init__]: the savers *)

Definition QAModel_init (FLAGS : Flags F) (s : Session) : World :=
  {| session := s;
     saver := Saver_new (keep FLAGS);
     bestmodel_saver := Saver_new 1;
     bestmodel_dev_loss_saver := Saver_new 1;
     summary_writer := [];
     checkpoints_written := [] |}.

(** *** [session.run]

    [keep_prob] is [tf.placeholder_with_default(1.0, shape=())]: a feed that
    has no entry for it runs the graph at 1.0. *)
Definition resolve_keep_prob (feed : feed_dict F) : outcome F :=
  match feed !! keep_prob with
  | None => Returns (lit 1%Q)
  | Some (Scalar x) => Returns x
  | Some (Tensor _) => Raises InvalidArgumentError
  end.

Definition session_run {A : Type}
    (op : Session -> feed_dict F -> F -> outcome (A * Session))
    (feed : feed_dict F) : M A :=
  fun w =>
    match resolve_keep_prob feed with
    | Raises e => Raises e
    | Returns kp =>
        match op (session w) feed kp with
        | Raises e => Raises e
        | Returns (a, s') => Returns (a, set_session w s')
        end
    end.

Definition add_summary (summary : Summary F) (global_step : Z) : M unit :=
  fun w =>
    Returns (tt, {| session := session w;
                    saver := saver w;
                    bestmodel_saver := bestmodel_saver w;
                    bestmodel_dev_loss_saver := bestmodel_dev_loss_saver w;
                    summary_writer := summary_writer w ++ [(summary, global_step)];
                    checkpoints_written := checkpoints_written w |}).

Definition write_summary (value : F) (tag : string) (global_step : Z) : M unit :=
  add_summary [(tag, value)] global_step.

(** [saver.save(session, path, global_step=step)] on one of the savers. *)
Definition save (sl : slot) (path : string) (global_step : Z) : M unit :=
  fun w =>
    match write_checkpoint path global_step (session w) with
    | Some e => Raises e
    | None =>
        Returns (tt, log_checkpoint
                       (set_saver sl w
                          (Saver_save (get_saver sl w) global_step
                             (variables (session w))))
                       sl path global_step)
    end.

(** *** The forward passes *)

Definition run_train_iter_feed (FLAGS : Flags F) (batch : Batch) : feed_dict F :=
  <[keep_prob := Scalar (fsub (lit 1%Q) (dropout FLAGS))]>
  (<[stance := Tensor (ans_span batch)]>
  (<[qn_mask := Tensor (headline_mask batch)]>
  (<[qn_ids := Tensor (headline_ids batch)]>
  (<[context_mask := Tensor (body_mask batch)]>
  (<[context_ids := Tensor (body_ids batch)]> ∅))))).

Definition run_train_iter (FLAGS : Flags F) (batch : Batch) : M (F * Z * F * F) :=
  let* out := session_run run_train_op (run_train_iter_feed FLAGS batch) in
  let* _ := add_summary (fetch_summaries out) (fetch_global_step out) in
  ret (fetch_loss out, fetch_global_step out,
       fetch_param_norm out, fetch_gradient_norm out).

Definition get_loss_feed (batch : Batch) : feed_dict F :=
  <[stance := Tensor (ans_span batch)]>
  (<[qn_mask := Tensor (headline_mask batch)]>
  (<[qn_ids := Tensor (headline_ids batch)]>
  (<[context_mask := Tensor (body_mask batch)]>
  (<[context_ids := Tensor (body_ids batch)]> ∅)))).

Definition get_loss (batch : Batch) : M F :=
  session_run run_loss_op (get_loss_feed batch).

Definition get_class_prob_dist_feed (batch : Batch) : feed_dict F :=
  <[qn_mask := Tensor (headline_mask batch)]>
  (<[qn_ids := Tensor (headline_ids batch)]>
  (<[context_mask := Tensor (body_mask batch)]>
  (<[context_ids := Tensor (body_ids batch)]> ∅))).

Definition get_class_prob_dist (batch : Batch) : M (list (list F)) :=
  session_run run_probdist_op (get_class_prob_dist_feed batch).

Definition get_class (batch : Batch) : M (list Z) :=
  let* probdist_class := get_class_prob_dist batch in
  lift (traverse argmax probdist_class).

(** *** [custom_get_dev_loss] *)

Fixpoint dev_loss_loop (batches : list Batch)
    (loss_per_batch : list F) (batch_lengths : list Z) : M (list F * list Z) :=
  match batches with
  | [] => ret (loss_per_batch, batch_lengths)
  | batch :: rest =>
      let* loss := get_loss batch in
      let curr_batch_size := Z.of_nat (batch_size batch) in
      dev_loss_loop rest
        (loss_per_batch ++ [fmul loss (of_int curr_batch_size)])
        (batch_lengths ++ [curr_batch_size])
  end.

Definition custom_get_dev_loss (dev_body_path dev_headline_path dev_ans_path : string)
    : M F :=
  let* (loss_per_batch, batch_lengths) :=
    dev_loss_loop
      (custom_get_batch_generator dev_body_path dev_headline_path dev_ans_path true)
      [] [] in
  let total_num_examples := py_sum_int batch_lengths in
  lift (py_truediv (py_sum loss_per_batch) total_num_examples).

(** *** [check_score_cm] *)

(** The predicted and the actual labels of one batch (the head of the loop
    body). *)
Definition batch_labels (batch : Batch) : M (list string * list string) :=
  let* pred_class := get_class batch in
  let* predicted := lift (traverse (py_index LABELS) pred_class) in
  let* actual_reshaped := lift (reshape_flat (ans_span batch) (batch_size batch)) in
  let* actual := lift (traverse (py_index LABELS) actual_reshaped) in
  ret (predicted, actual).

(** The loop over the batch generator.  Besides the two label lists it
    returns the batches the generator was never asked for. *)
Fixpoint check_score_loop (num_samples : Z) (batches : list Batch)
    (pred_list actual_list : list string) (rem_count : Z)
    : M (list string * list string * list Batch) :=
  match batches with
  | [] => ret (pred_list, actual_list, [])
  | batch :: rest =>
      let* (predicted, actual) := batch_labels batch in
      let batch_size := Z.of_nat (batch_size batch) in
      if num_samples =? 0 then
        check_score_loop num_samples rest
          (pred_list ++ predicted) (actual_list ++ actual) rem_count
      else
        let '(pred_list', actual_list', rem_count') :=
          if rem_count >=? batch_size then
            (pred_list ++ predicted, actual_list ++ actual, rem_count - batch_size)
          else
            (pred_list ++ py_slice_to predicted rem_count,
             actual_list ++ py_slice_to actual rem_count, 0) in
        if rem_count' =? 0 then ret (pred_list', actual_list', rest)
        else check_score_loop num_samples rest pred_list' actual_list' rem_count'
  end.

(** The label pairs [check_score_cm] hands to the scorer. *)
Definition check_score_pairs (body_path headline_path ans_path : string)
    (num_samples : Z) : M (list string * list string * list Batch) :=
  check_score_loop num_samples
    (custom_get_batch_generator body_path headline_path ans_path false)
    [] [] num_samples.

Definition check_score_cm (body_path headline_path ans_path : string)
    (num_samples : Z) : M F :=
  let* (pred_list, actual_list, _) :=
    check_score_pairs body_path headline_path ans_path num_samples in
  lift (report_score actual_list pred_list).

(** *** [custom_train] *)

Record Paths : Type := {
  train_body_path : string;
  train_headline_path : string;
  train_ans_path : string;
  dev_headline_path : string;
  dev_body_path : string;
  dev_ans_path : string
}.

(** The local variables of [custom_train] that outlive an iteration. *)
Record TrainState : Type := {
  exp_loss : option F;
  best_subm_score : option F;
  lowest_dev_loss : option F;
  epoch : Z
}.

Definition initial_state : TrainState :=
  {| exp_loss := None; best_subm_score := None; lowest_dev_loss := None; epoch := 0 |}.

(** [not x] for a variable that holds [None] or a number. *)
Definition py_not (x : option F) : bool :=
  match x with
  | None => true
  | Some v => fis_zero v
  end.

(** The update of the exponentially smoothed loss. *)
Definition update_exp_loss (exp_loss : option F) (loss : F) : option F :=
  if py_not exp_loss then Some loss
  else option_map
         (fun e => fadd (fmul (lit (99 # 100)%Q) e) (fmul (lit (1 # 100)%Q) loss))
         exp_loss.

Definition checkpoint_path (FLAGS : Flags F) : string :=
  (train_dir FLAGS ++ "/qa.ckpt")%string.
Definition bestmodel_ckpt_path (FLAGS : Flags F) : string :=
  (train_dir FLAGS ++ "/best_checkpoint/qa_best.ckpt")%string.
Definition bestmodel_dev_loss_ckpt_path (FLAGS : Flags F) : string :=
  (train_dir FLAGS ++ "/best_checkpoint_dev_loss/qa_best_dev_loss.ckpt")%string.

(** [best_subm_score is None or dev_score > best_subm_score] *)
Definition score_improves (st : TrainState) (dev_score : F) : bool :=
  match best_subm_score st with
  | None => true
  | Some best => flt best dev_score
  end.

(** [lowest_dev_loss is None or dev_loss < lowest_dev_loss] *)
Definition loss_improves (st : TrainState) (dev_loss : F) : bool :=
  match lowest_dev_loss st with
  | None => true
  | Some lowest => flt dev_loss lowest
  end.

(** The two early-stopping tests at the end of an evaluation. *)
Definition early_stopping (FLAGS : Flags F) (st : TrainState)
    (dev_score dev_loss : F) (global_step : Z) : M TrainState :=
  let* st1 :=
    if score_improves st dev_score then
      let* _ := save BestByScore (bestmodel_ckpt_path FLAGS) global_step in
      ret {| exp_loss := exp_loss st; best_subm_score := Some dev_score;
             lowest_dev_loss := lowest_dev_loss st; epoch := epoch st |}
    else ret st in
  if loss_improves st1 dev_loss then
    let* _ := save BestByLoss (bestmodel_dev_loss_ckpt_path FLAGS) global_step in
    ret {| exp_loss := exp_loss st1; best_subm_score := best_subm_score st1;
           lowest_dev_loss := Some dev_loss; epoch := epoch st1 |}
  else ret st1.

(** The body of [if global_step % eval_every == 0]. *)
Definition evaluate (FLAGS : Flags F) (paths : Paths) (st : TrainState)
    (global_step : Z) : M TrainState :=
  let* dev_loss :=
    custom_get_dev_loss (dev_body_path paths) (dev_headline_path paths)
      (dev_ans_path paths) in
  let* _ := write_summary dev_loss "dev/loss" global_step in
  let* train_score :=
    check_score_cm (train_body_path paths) (train_headline_path paths)
      (train_ans_path paths) 1000 in
  let* _ := write_summary train_score "train/subm_score" global_step in
  let* dev_score :=
    check_score_cm (dev_body_path paths) (dev_headline_path paths)
      (dev_ans_path paths) 0 in
  let* _ := write_summary dev_score "dev/subm_score" global_step in
  early_stopping FLAGS st dev_score dev_loss global_step.

Definition scheduled_save (FLAGS : Flags F) (global_step : Z) : M unit :=
  let* r := lift (py_mod global_step (save_every FLAGS)) in
  if r =? 0 then save MostRecent (checkpoint_path FLAGS) global_step else ret tt.

Definition scheduled_eval (FLAGS : Flags F) (paths : Paths) (st : TrainState)
    (global_step : Z) : M TrainState :=
  let* r := lift (py_mod global_step (eval_every FLAGS)) in
  if r =? 0 then evaluate FLAGS paths st global_step else ret st.

(** The local variables after the smoothed loss has taken in [loss]. *)
Definition record_loss (st : TrainState) (loss : F) : TrainState :=
  {| exp_loss := update_exp_loss (exp_loss st) loss;
     best_subm_score := best_subm_score st;
     lowest_dev_loss := lowest_dev_loss st;
     epoch := epoch st |}.

(** One iteration of the loop over the training batches. *)
Definition train_step (FLAGS : Flags F) (paths : Paths) (st : TrainState)
    (batch : Batch) : M TrainState :=
  let* (loss, global_step, param_norm, grad_norm) := run_train_iter FLAGS batch in
  let st' := record_loss st loss in
  let* _ := lift (py_mod global_step (print_every FLAGS)) in
  let* _ := scheduled_save FLAGS global_step in
  scheduled_eval FLAGS paths st' global_step.

Fixpoint batch_loop (FLAGS : Flags F) (paths : Paths) (st : TrainState)
    (batches : list Batch) : M TrainState :=
  match batches with
  | [] => ret st
  | batch :: rest =>
      let* st' := train_step FLAGS paths st batch in
      batch_loop FLAGS paths st' rest
  end.

(** [epoch += 1] *)
Definition begin_epoch (st : TrainState) : TrainState :=
  {| exp_loss := exp_loss st; best_subm_score := best_subm_score st;
     lowest_dev_loss := lowest_dev_loss st; epoch := epoch st + 1 |}.

(** The body of the [while] loop: one epoch. *)
Definition run_epoch (FLAGS : Flags F) (paths : Paths) (st : TrainState)
    : M TrainState :=
  batch_loop FLAGS paths (begin_epoch st)
    (custom_get_batch_generator (train_body_path paths) (train_headline_path paths)
       (train_ans_path paths) true).

(** [self.FLAGS.num_epochs == 0 or epoch < self.FLAGS.num_epochs] *)
Definition loop_condition (FLAGS : Flags F) (st : TrainState) : bool :=
  (num_epochs FLAGS =? 0) || (epoch st <? num_epochs FLAGS).

(** The [while] loop.  [fuel] bounds the number of times the condition is
    tested; [None] means the loop was still running when it ran out. *)
Fixpoint epoch_loop (fuel : nat) (FLAGS : Flags F) (paths : Paths)
    (st : TrainState) (w : World) : option (outcome (TrainState * World)) :=
  match fuel with
  | O => None
  | S fuel' =>
      if loop_condition FLAGS st then
        match run_epoch FLAGS paths st w with
        | Raises e => Some (Raises e)
        | Returns (st', w') => epoch_loop fuel' FLAGS paths st' w'
        end
      else Some (Returns (st, w))
  end.

(** [custom_train] returns nothing; the model returns the final values of
    its local variables. *)
Definition custom_train (fuel : nat) (FLAGS : Flags F) (paths : Paths)
    (w : World) : option (outcome (TrainState * World)) :=
  epoch_loop fuel FLAGS paths initial_state w.

End Model.

(** ** A small concrete backend

    Used to run the model.  A batch carries its own loss, as the fraction
    [n/d] read off the first row [[n; d]] of [body_ids], and its own
    predictions, as the first entry of each row of [headline_ids].  A
    session is a pair of the step counter, which stands for the variables,
    and a noise value, which dropout adds to the outputs unless the keep
    probability is one.  Batches are served by body path: "train" gives the
    first list, anything else the second.  A checkpoint write fails at step
    [disk_full_at]. *)

Section Toy.

Context {F : Type} {NumF : Num F}.

Definition toy_loss (feed : feed_dict F) : F :=
  match feed !! context_ids with
  | Some (Tensor ((n :: d :: _) :: _)) => fdiv (of_int n) (of_int d)
  | _ => of_int 0
  end.

Definition toy_noise (kp : F) (noise : Z) : F :=
  if fis_zero (fsub kp (lit 1%Q)) then of_int 0 else of_int noise.

Definition toy_one_hot (c : Z) : list F :=
  map (fun i => if i =? c then of_int 1 else of_int 0) [0; 1; 2; 3].

Definition toy_probdist (feed : feed_dict F) : list (list F) :=
  match feed !! qn_ids with
  | Some (Tensor rows) =>
      map (fun row => match row with c :: _ => toy_one_hot c | [] => [] end) rows
  | _ => []
  end.

Fixpoint toy_agreements (actual predicted : list string) : Z :=
  match actual, predicted with
  | a :: actual', p :: predicted' =>
      (if String.eqb a p then 1 else 0) + toy_agreements actual' predicted'
  | _, _ => 0
  end.

Definition toy_backend (train dev : list Batch) (disk_full_at : Z) : Backend F := {|
  Session := Z * Z;
  Variables := Z;
  variables := fst;
  run_train_op s feed kp :=
    Returns ({| fetch_summaries := [("loss"%string, toy_loss feed)];
                fetch_loss := fadd (toy_loss feed) (toy_noise kp (snd s));
                fetch_global_step := fst s + 1;
                fetch_param_norm := of_int (fst s + 1);
                fetch_gradient_norm := of_int 1 |},
             (fst s + 1, snd s + 1));
  run_loss_op s feed kp :=
    Returns (fadd (toy_loss feed) (toy_noise kp (snd s)), (fst s, snd s + 1));
  run_probdist_op s feed kp :=
    Returns (map (map (fun x => fadd x (toy_noise kp (snd s)))) (toy_probdist feed),
             (fst s, snd s + 1));
  custom_get_batch_generator body_path _ _ _ :=
    if String.eqb body_path "train" then train else dev;
  report_score actual predicted := Returns (of_int (toy_agreements actual predicted));
  LABELS := ["agree"; "disagree"; "discuss"; "unrelated"]%string;
  write_checkpoint _ step _ :=
    if step =? disk_full_at then Some (IOError 28) else None
|}.

(** A batch of [size] examples with loss [n/d], every example labelled and
    predicted as class [c]. *)
Definition toy_batch (n d : Z) (c : Z) (size : nat) : Batch :=
  {| body_ids := [[n; d]];
     body_mask := [];
     headline_ids := repeat [c] size;
     headline_mask := [];
     ans_span := repeat [c] size;
     batch_size := size |}.

Definition toy_flags (epochs every : Z) : Flags F :=
  {| num_epochs := epochs; print_every := 1; save_every := every;
     eval_every := every; dropout := lit (15 # 100)%Q; keep := 3;
     train_dir := "experiments" |}.

Definition toy_paths : Paths :=
  {| train_body_path := "train"; train_headline_path := "train";
     train_ans_path := "train"; dev_headline_path := "dev";
     dev_body_path := "dev"; dev_ans_path := "dev" |}.

End Toy.

(** ** Specification vocabulary *)

Section Specification.

Context {F : Type} {NumF : Num F} {B : Backend F}.

(** The sum of a list of numbers, added left to right from zero. *)
Definition fsum (l : list F) : F := fold_left fadd l (of_int 0).

(** The sizes of the batches, as the ints the code reads. *)
Definition batch_sizes (batches : list Batch) : list Z :=
  map (fun b => Z.of_nat (batch_size b)) batches.

Definition total_examples (batches : list Batch) : Z :=
  py_sum_int (batch_sizes batches).

(** The dataset loss as the specification words it:
    [sum(loss_i * size_i) / sum(size_i)]. *)
Definition dataset_loss_spec (losses : list F) (sizes : list Z) : F :=
  fdiv (fsum (map (fun ls => fmul (fst ls) (of_int (snd ls))) (combine losses sizes)))
       (of_int (py_sum_int sizes)).


(** How many batches a positive sample limit [rem] makes the scorer pull. *)
Fixpoint batches_needed (rem : Z) (batches : list Batch) : nat :=
  match batches with
  | [] => 0%nat
  | b :: rest =>
      if rem <=? Z.of_nat (batch_size b) then 1%nat
      else S (batches_needed (rem - Z.of_nat (batch_size b)) rest)
  end.

(** Two worlds whose sessions hold the same variables. *)
Definition same_variables (w1 w2 : World) : Prop :=
  variables (session w1) = variables (session w2).

(** The assumption on the graph that dropout is the only source of
    randomness: run at keep probability one, the inference fetches are a
    function of the variables and the feed, and leave the variables alone. *)
Definition inference_without_dropout : Prop :=
  (forall s1 s2 feed, variables s1 = variables s2 ->
     value_of (run_loss_op s1 feed (lit 1%Q)) = value_of (run_loss_op s2 feed (lit 1%Q)))
  /\ (forall s1 s2 feed, variables s1 = variables s2 ->
     value_of (run_probdist_op s1 feed (lit 1%Q))
     = value_of (run_probdist_op s2 feed (lit 1%Q)))
  /\ (forall s feed x s', run_loss_op s feed (lit 1%Q) = Returns (x, s') ->
     variables s' = variables s)
  /\ (forall s feed x s', run_probdist_op s feed (lit 1%Q) = Returns (x, s') ->
     variables s' = variables s).

(** A slot within its retention count. *)
Definition slot_bounded {P : Type} (k : nat) (sv : Saver P) : Prop :=
  max_to_keep sv = k /\ (List.length (kept sv) <= k)%nat.

(** The three slots within the retention counts [__init__] gives them. *)
Definition slots_bounded (FLAGS : Flags F) (w : World) : Prop :=
  slot_bounded (keep FLAGS) (saver w)
  /\ slot_bounded 1 (bestmodel_saver w)
  /\ slot_bounded 1 (bestmodel_dev_loss_saver w).

(** [loop_reaches FLAGS paths k x y]: from the loop state [x] the [while]
    loop of [custom_train] is at the loop state [y] after [k] complete
    epochs. *)
Inductive loop_reaches (FLAGS : Flags F) (paths : Paths)
    : nat -> TrainState * World -> TrainState * World -> Prop :=
  | reaches_here : forall x, loop_reaches FLAGS paths 0 x x
  | reaches_later : forall k st w st' w' x,
      loop_condition FLAGS st = true ->
      run_epoch FLAGS paths st w = Returns (st', w') ->
      loop_reaches FLAGS paths k (st', w') x ->
      loop_reaches FLAGS paths (S k) (st, w) x.

End Specification.

(** ** Concrete runs *)

(** Two training batches with losses 0.0 and 1.0. *)
Definition zero_loss_backend : Backend float :=
  toy_backend [toy_batch 0 1 0 2; toy_batch 1 1 1 2] [toy_batch 2 1 0 3] (-1).

(** One epoch in binary64, no dropout, nothing scheduled before step 5. *)
Definition plain_flags : Flags float :=
  {| num_epochs := 1; print_every := 1; save_every := 5; eval_every := 5;
     dropout := 0%float; keep := 3; train_dir := "experiments" |}.


(** The same data over the rationals. *)
Definition uneven_dev_backend_Q : Backend Q :=
  toy_backend [toy_batch 1 1 0 2] [toy_batch 2 1 0 3; toy_batch 10 1 1 1] (-1).

(** An empty dev set. *)
Definition empty_dev_backend : Backend Q :=
  toy_backend [toy_batch 1 2 0 2; toy_batch 1 4 1 2] [] (-1).

(** Three dev batches of size 4, labelled by class 0, 1 and 2. *)
Definition three_batches_backend : Backend Q :=
  toy_backend [] [toy_batch 1 1 0 4; toy_batch 1 1 1 4; toy_batch 1 1 2 4] (-1).

(** Four training batches and a dev batch; the disk never fills. *)
Definition four_steps_backend : Backend Q :=
  toy_backend
    [toy_batch 4 1 0 2; toy_batch 3 1 1 2; toy_batch 2 1 2 2; toy_batch 1 1 3 2]
    [toy_batch 2 1 0 3] (-1).

(** The same, with the disk full at step 2. *)
Definition disk_full_backend : Backend Q :=
  toy_backend
    [toy_batch 4 1 0 2; toy_batch 3 1 1 2; toy_batch 2 1 2 2; toy_batch 1 1 3 2]
    [toy_batch 2 1 0 3] 2.

(** No training data: an epoch is an empty pass. *)
Definition no_data_backend : Backend Q := toy_backend [] [] (-1).
(** Two dev batches of size 4, labelled by class 0 and 1. *)
Definition two_batches_backend : Backend Q :=
  toy_backend [] [toy_batch 1 1 0 4; toy_batch 1 1 1 4] (-1).

(** The checkpoint writes an evaluation with the given dev score and dev
    loss adds, when the best score so far is 5 and the lowest loss is 2. *)
Definition early_stopping_writes (dev_score dev_loss : Q)
    : outcome (list (slot * string * Z)) :=
  outcome_map (fun r => checkpoints_written (snd r))
    (@early_stopping Q _ four_steps_backend (toy_flags 1 1)
       {| exp_loss := None; best_subm_score := Some 5%Q;
          lowest_dev_loss := Some 2%Q; epoch := 1 |}
       dev_score dev_loss 7
       (@QAModel_init Q four_steps_backend (toy_flags 1 1) (0, 0))).

(** A computation that keeps a property of the world. *)
Definition preserves {F : Type} {B : Backend F} {A : Type}
    (I : World -> Prop) (c : M A) : Prop :=
  forall w a w', I w -> c w = Returns (a, w') -> I w'.

(** Four saves, at steps 1 to 4, into a fresh slot of retention 3. *)
Definition four_saves : Saver unit :=
  Saver_save (Saver_save (Saver_save (Saver_save (Saver_new 3) 1 tt) 2 tt) 3 tt) 4 tt.

(** The steps held by the three slots of a world. *)
Definition slot_steps {F : Type} {B : Backend F} (w : World)
    : list Z * list Z * list Z :=
  (Saver_steps (saver w), Saver_steps (bestmodel_saver w),
   Saver_steps (bestmodel_dev_loss_saver w)).

(** Two results that agree: the same value and worlds with the same
    variables, or the same exception. *)
Definition agree {F : Type} {B : Backend F} {A : Type}
    (r1 r2 : outcome (A * World)) : Prop :=
  match r1, r2 with
  | Returns (a1, w1), Returns (a2, w2) => a1 = a2 /\ same_variables w1 w2
  | Raises e1, Raises e2 => e1 = e2
  | _, _ => False
  end.

(** A computation whose result is determined by the variables. *)
Definition deterministic {F : Type} {B : Backend F} {A : Type} (c : M A) : Prop :=
  forall w1 w2, same_variables w1 w2 -> agree (c w1) (c w2).

(** The toy backend with dev batches over the rationals, for training with
    dropout. *)
Definition dropout_flags : Flags Q := toy_flags 1 5.

(** The smoothed loss after a sequence of raw losses, as the loop of
    [custom_train] computes it. *)
Definition smoothed_loss {F : Type} `{Num F} (losses : list F) : option F :=
  fold_left update_exp_loss losses None.

(** [0.99 ^ k] *)
Fixpoint decay (k : nat) : Q :=
  match k with
  | O => 1
  | S k' => (99 # 100) * decay k'
  end%Q.

(** The sum of [0.01 * 0.99^(k+i) * x_i] over a list of losses, most recent
    first. *)
Fixpoint weighted_history (k : nat) (recent_first : list Q) : Q :=
  match recent_first with
  | [] => 0
  | x :: older => (1 # 100) * decay k * x + weighted_history (S k) older
  end%Q.

(** The smoothed loss in closed form: the first loss decayed, plus the
    later losses with weights [0.01 * 0.99^k]. *)
Definition smoothed_closed_form (first : Q) (later : list Q) : Q :=
  (decay (List.length later) * first + weighted_history 0 (rev later))%Q.

(** A property of what a computation returned; false if it raised. *)
Definition on_return {A : Type} (r : outcome A) (P : A -> Prop) : Prop :=
  match r with
  | Returns a => P a
  | Raises _ => False
  end.

(** Two worlds that differ in the session only. *)
Definition same_outside_session {F : Type} {B : Backend F} (w w' : World) : Prop :=
  saver w' = saver w
  /\ bestmodel_saver w' = bestmodel_saver w
  /\ bestmodel_dev_loss_saver w' = bestmodel_dev_loss_saver w
  /\ summary_writer w' = summary_writer w
  /\ checkpoints_written w' = checkpoints_written w.



(** The early-stopping records of [st'] are no worse than those of [st]: a
    best score, once there, stays and does not go down; a lowest loss, once
    there, stays and does not go up. *)
Definition records_no_worse {B : Backend Q} (st st' : TrainState) : Prop :=
  match best_subm_score st with
  | None => True
  | Some best => exists best', best_subm_score st' = Some best' /\ (best <= best')%Q
  end
  /\ match lowest_dev_loss st with
     | None => True
     | Some lowest =>
         exists lowest', lowest_dev_loss st' = Some lowest' /\ (lowest' <= lowest)%Q
     end.

(** ** Proofs *)

Section MonadFacts.

Context {F : Type} {NumF : Num F} {B : Backend F}.

Lemma bind_Returns {A C : Type} (c : M A) (k : A -> M C) w a w' :
  c w = Returns (a, w') -> bind c k w = k a w'.
Proof. intros Hc. unfold bind. rewrite Hc. reflexivity. Qed.

Lemma bind_Raises {A C : Type} (c : M A) (k : A -> M C) w e :
  c w = Raises e -> bind c k w = Raises e.
Proof. intros Hc. unfold bind. rewrite Hc. reflexivity. Qed.

Lemma bind_inv {A C : Type} (c : M A) (k : A -> M C) w r w'' :
  bind c k w = Returns (r, w'') ->
  exists a w', c w = Returns (a, w') /\ k a w' = Returns (r, w'').
Proof.
  unfold bind. destruct (c w) as [[a w'] | e]; intros Hk.
  - exists a, w'. split; [reflexivity | exact Hk].
  - discriminate Hk.
Qed.

Lemma lift_inv {A : Type} (r : outcome A) w a w' :
  lift r w = Returns (a, w') -> r = Returns a /\ w' = w.
Proof.
  unfold lift. destruct r as [x | e]; intros H; inversion H; subst. split; reflexivity.
Qed.

Lemma mapM_length {A C : Type} (f : A -> M C) (l : list A) :
  forall w cs w', mapM f l w = Returns (cs, w') -> List.length cs = List.length l.
Proof.
  induction l as [| a rest IH]; intros w cs w' H; simpl in H.
  - inversion H. reflexivity.
  - apply bind_inv in H. destruct H as (c & w1 & _ & H).
    apply bind_inv in H. destruct H as (cs' & w2 & Hrest & H).
    inversion H; subst. simpl. f_equal. eapply IH. exact Hrest.
Qed.

End MonadFacts.

Section DevLoss.

Context {F : Type} {NumF : Num F} {B : Backend F}.

Lemma dev_loss_loop_eq (batches : list Batch) :
  forall loss_per_batch batch_lengths w,
    dev_loss_loop batches loss_per_batch batch_lengths w =
    match mapM get_loss batches w with
    | Raises e => Raises e
    | Returns (losses, w') =>
        Returns ((loss_per_batch
                    ++ map (fun ls => fmul (fst ls) (of_int (snd ls)))
                         (combine losses (batch_sizes batches)),
                  batch_lengths ++ batch_sizes batches), w')
    end.
Proof.
  induction batches as [| b rest IH]; intros lpb bl w; simpl.
  - unfold ret. rewrite !app_nil_r. reflexivity.
  - unfold bind at 1 2. destruct (get_loss b w) as [[loss w1] | e]; [| reflexivity].
    rewrite IH. unfold bind.
    destruct (mapM get_loss rest w1) as [[losses w2] | e]; [| reflexivity].
    unfold ret. simpl. rewrite <- !app_assoc. reflexivity.
Qed.

Lemma py_sum_from (l : list F) :
  forall a, fold_left py_add l (NpFloat a) = NpFloat (fold_left fadd l a).
Proof. induction l as [| x l IH]; intros a; simpl; [reflexivity | apply IH]. Qed.

Lemma py_sum_cons (x : F) (l : list F) : py_sum (x :: l) = NpFloat (fsum (x :: l)).
Proof. unfold py_sum, fsum. simpl. apply py_sum_from. Qed.

Lemma custom_get_dev_loss_eq (body headline ans : string) (w : World) :
  custom_get_dev_loss body headline ans w =
  match mapM get_loss (custom_get_batch_generator body headline ans true) w with
  | Raises e => Raises e
  | Returns (losses, w') =>
      let sizes := batch_sizes (custom_get_batch_generator body headline ans true) in
      match py_truediv
              (py_sum (map (fun ls => fmul (fst ls) (of_int (snd ls)))
                         (combine losses sizes)))
              (py_sum_int sizes) with
      | Raises e => Raises e
      | Returns x => Returns (x, w')
      end
  end.
Proof.
  unfold custom_get_dev_loss, bind. rewrite dev_loss_loop_eq.
  destruct (mapM get_loss _ w) as [[losses w'] | e]; [| reflexivity].
  simpl. unfold lift. reflexivity.
Qed.

Lemma custom_get_dev_loss_nonempty (body headline ans : string) (w : World) losses w' :
  custom_get_batch_generator body headline ans true <> [] ->
  mapM get_loss (custom_get_batch_generator body headline ans true) w
    = Returns (losses, w') ->
  custom_get_dev_loss body headline ans w =
  Returns (dataset_loss_spec losses
             (batch_sizes (custom_get_batch_generator body headline ans true)), w').
Proof.
  intros Hne Hrun. rewrite custom_get_dev_loss_eq, Hrun. simpl.
  pose proof (mapM_length _ _ _ _ _ Hrun) as Hlen.
  destruct (custom_get_batch_generator body headline ans true) as [| b rest];
    [contradiction |].
  destruct losses as [| l losses]; [discriminate Hlen |].
  simpl combine. simpl map. rewrite py_sum_cons. reflexivity.
Qed.

End DevLoss.

(** *** Exact arithmetic *)


Lemma py_sum_int_from (l : list Z) :
  forall a, fold_left Z.add l a = a + py_sum_int l.
Proof.
  unfold py_sum_int. induction l as [| x l IH]; intros a; simpl.
  - lia.
  - rewrite (IH (a + x)), (IH (0 + x)). lia.
Qed.

Lemma py_sum_int_cons (x : Z) (l : list Z) : py_sum_int (x :: l) = x + py_sum_int l.
Proof. unfold py_sum_int at 1. simpl. apply py_sum_int_from. Qed.





(** C9: the final division of [custom_get_dev_loss] is unguarded: on a dev
    set that yields no batch it raises [ZeroDivisionError] instead of
    returning a value, and on a dev set that yields at least one batch it
    returns a value whenever the forward passes do. *)
Theorem custom_get_dev_loss_needs_a_batch :
  forall (F : Type) (NumF : Num F) (B : Backend F)
         (body headline ans : string) (w : World),
    (custom_get_batch_generator body headline ans true = [] ->
     custom_get_dev_loss body headline ans w = Raises ZeroDivisionError)
    /\ (forall (losses : list F) (w' : World),
          custom_get_batch_generator body headline ans true <> [] ->
          mapM get_loss (custom_get_batch_generator body headline ans true) w
            = Returns (losses, w') ->
          exists x, custom_get_dev_loss body headline ans w = Returns (x, w')).
Proof.
  intros F NumF B body headline ans w. split.
  - intros Hempty. rewrite custom_get_dev_loss_eq, Hempty. reflexivity.
  - intros losses w' Hne Hrun. eexists.
    apply custom_get_dev_loss_nonempty; eassumption.
Qed.

Lemma custom_get_dev_loss_needs_a_batch_witness :
  @custom_get_dev_loss Q _ empty_dev_backend "dev" "dev" "dev"
    (@QAModel_init Q empty_dev_backend (toy_flags 1 1) (0, 0))
  = Raises ZeroDivisionError
  /\ exists x,
       @custom_get_dev_loss Q _ uneven_dev_backend_Q "dev" "dev" "dev"
         (@QAModel_init Q uneven_dev_backend_Q (toy_flags 1 1) (0, 0))
       = Returns (x, set_session
                       (@QAModel_init Q uneven_dev_backend_Q (toy_flags 1 1) (0, 0))
                       (0, 2)).
Proof.
  split.
  - apply (proj1 (custom_get_dev_loss_needs_a_batch Q _ empty_dev_backend
                    "dev" "dev" "dev" _)).
    reflexivity.
  - apply (proj2 (custom_get_dev_loss_needs_a_batch Q _ uneven_dev_backend_Q
                    "dev" "dev" "dev" _) [2; 10]%Q).
    + discriminate.
    + vm_compute. reflexivity.
Defined.

Section Scoring.

Context {F : Type} {NumF : Num F} {B : Backend F}.

Lemma traverse_length {A C : Type} (f : A -> outcome C) (l : list A) :
  forall cs, traverse f l = Returns cs -> List.length cs = List.length l.
Proof.
  induction l as [| a rest IH]; intros cs H; simpl in H.
  - inversion H. reflexivity.
  - destruct (f a) as [c | e]; [| discriminate H].
    destruct (traverse f rest) as [cs' | e]; [| discriminate H].
    inversion H; subst. simpl. f_equal. apply IH. reflexivity.
Qed.

Lemma reshape_flat_length (arr : list (list Z)) (n : nat) (l : list Z) :
  reshape_flat arr n = Returns l -> List.length l = n.
Proof.
  unfold reshape_flat. destruct (Nat.eqb_spec (List.length (concat arr)) n) as [E | E];
    intros H; inversion H; subst. reflexivity.
Qed.

Lemma batch_labels_actual_length (b : Batch) w predicted actual w' :
  batch_labels b w = Returns ((predicted, actual), w') ->
  List.length actual = batch_size b.
Proof.
  unfold batch_labels. intros H.
  apply bind_inv in H. destruct H as (pc & w1 & _ & H).
  apply bind_inv in H. destruct H as (p & w2 & _ & H).
  apply bind_inv in H. destruct H as (ar & w3 & Hr & H).
  apply bind_inv in H. destruct H as (a & w4 & Ha & H).
  apply lift_inv in Hr. destruct Hr as [Hr _].
  apply lift_inv in Ha. destruct Ha as [Ha _].
  inversion H; subst.
  apply traverse_length in Ha. apply reshape_flat_length in Hr. congruence.
Qed.

Lemma mapM_batch_labels_actual (batches : list Batch) :
  forall w labels w',
    mapM batch_labels batches w = Returns (labels, w') ->
    Forall2 (fun b l => List.length (snd l) = batch_size b) batches labels.
Proof.
  induction batches as [| b rest IH]; intros w labels w' H; simpl in H.
  - inversion H. constructor.
  - apply bind_inv in H. destruct H as ([p a] & w1 & Hb & H).
    apply bind_inv in H. destruct H as (ls & w2 & Hrest & H).
    inversion H; subst. constructor.
    + simpl. eapply batch_labels_actual_length. exact Hb.
    + eapply IH. exact Hrest.
Qed.

Lemma total_examples_cons (b : Batch) (rest : list Batch) :
  total_examples (b :: rest) = Z.of_nat (batch_size b) + total_examples rest.
Proof. unfold total_examples. simpl. apply py_sum_int_cons. Qed.

Lemma total_examples_nonneg (batches : list Batch) : 0 <= total_examples batches.
Proof.
  induction batches as [| b rest IH].
  - unfold total_examples, py_sum_int. simpl. lia.
  - rewrite total_examples_cons. lia.
Qed.

Lemma labels_length_total {A : Type} (g : list string * list string -> list A)
    (batches : list Batch) (labels : list (list string * list string)) :
  Forall2 (fun b l => List.length (g l) = batch_size b) batches labels ->
  Z.of_nat (List.length (concat (map g labels))) = total_examples batches.
Proof.
  induction 1 as [| b l rest ls Hl _ IH].
  - reflexivity.
  - simpl. rewrite length_app, total_examples_cons. lia.
Qed.

Lemma batches_needed_total (batches : list Batch) :
  forall rem, 0 < rem ->
    Z.min rem (total_examples (firstn (batches_needed rem batches) batches))
    = Z.min rem (total_examples batches).
Proof.
  induction batches as [| b rest IH]; intros rem Hrem; simpl.
  - reflexivity.
  - destruct (Z.leb_spec rem (Z.of_nat (batch_size b))) as [Hle | Hgt].
    + simpl. rewrite !total_examples_cons.
      pose proof (total_examples_nonneg rest).
      pose proof (total_examples_nonneg (firstn 0 rest)). lia.
    + simpl. rewrite !total_examples_cons.
      specialize (IH (rem - Z.of_nat (batch_size b))). lia.
Qed.

(** With no sample limit the loop appends the labels of every batch. *)
Lemma check_score_loop_all (batches : list Batch) :
  forall pred_list actual_list rem_count w,
    check_score_loop 0 batches pred_list actual_list rem_count w =
    match mapM batch_labels batches w with
    | Raises e => Raises e
    | Returns (labels, w') =>
        Returns ((pred_list ++ concat (map fst labels),
                  actual_list ++ concat (map snd labels), []), w')
    end.
Proof.
  induction batches as [| b rest IH]; intros pl al rem w; simpl.
  - unfold ret. rewrite !app_nil_r. reflexivity.
  - unfold bind at 1 2. destruct (batch_labels b w) as [[[p a] w1] | e]; [| reflexivity].
    rewrite IH. unfold bind.
    destruct (mapM batch_labels rest w1) as [[labels w2] | e]; [| reflexivity].
    unfold ret. simpl. rewrite <- !app_assoc. reflexivity.
Qed.

(** With a positive limit the loop pulls [batches_needed] batches and keeps
    the first [rem_count] labels of what they hold. *)
Lemma check_score_loop_limited (num_samples : Z) (batches : list Batch) :
  num_samples <> 0 ->
  forall pred_list actual_list rem_count w labels w',
    0 < rem_count ->
    mapM batch_labels (firstn (batches_needed rem_count batches) batches) w
      = Returns (labels, w') ->
    Forall2 (fun b l => List.length (fst l) = batch_size b)
      (firstn (batches_needed rem_count batches) batches) labels ->
    check_score_loop num_samples batches pred_list actual_list rem_count w =
    Returns ((pred_list ++ firstn (Z.to_nat rem_count) (concat (map fst labels)),
              actual_list ++ firstn (Z.to_nat rem_count) (concat (map snd labels)),
              skipn (batches_needed rem_count batches) batches), w').
Proof.
  intros Hn.
  induction batches as [| b rest IH]; intros pl al rem w labels w' Hrem Hrun Hlen.
  - simpl in *. inversion Hrun; subst. simpl. unfold ret.
    rewrite firstn_nil, !app_nil_r. reflexivity.
  - pose proof (mapM_batch_labels_actual _ _ _ _ Hrun) as Hact.
    simpl in Hrun, Hlen, Hact |- *.
    destruct (Z.eqb_spec num_samples 0) as [E | _]; [contradiction |].
    destruct (Z.leb_spec rem (Z.of_nat (batch_size b))) as [Hle | Hgt].
    + simpl in Hrun, Hlen, Hact.
      apply bind_inv in Hrun. destruct Hrun as ([p a] & w1 & Hb & Hrun).
      inversion Hrun; subst. clear Hrun.
      inversion Hlen as [| ? ? ? ? Hp _]; subst.
      inversion Hact as [| ? ? ? ? Ha _]; subst. simpl in Hp, Ha.
      unfold bind. rewrite Hb. simpl. rewrite !app_nil_r.
      destruct (Z.geb_spec rem (Z.of_nat (batch_size b))) as [Hge | Hlt].
      * assert (rem = Z.of_nat (batch_size b)) by lia. subst rem.
        replace (Z.of_nat (batch_size b) - Z.of_nat (batch_size b)) with 0 by lia.
        simpl. unfold ret. rewrite Nat2Z.id.
        assert (Hp' : (List.length p <= batch_size b)%nat) by lia.
        assert (Ha' : (List.length a <= batch_size b)%nat) by lia.
        rewrite (firstn_all2 p Hp'), (firstn_all2 a Ha'). reflexivity.
      * simpl. unfold ret, py_slice_to.
        destruct (Z.ltb_spec rem 0) as [Hneg | _]; [lia |]. reflexivity.
    + simpl in Hrun, Hlen, Hact.
      apply bind_inv in Hrun. destruct Hrun as ([p a] & w1 & Hb & Hrun).
      apply bind_inv in Hrun. destruct Hrun as (ls & w2 & Hrest & Hrun).
      inversion Hrun; subst. clear Hrun.
      inversion Hlen as [| ? ? ? ? Hp Hlen']; subst.
      inversion Hact as [| ? ? ? ? Ha _]; subst. simpl in Hp, Ha.
      unfold bind at 1. rewrite Hb. simpl.
      destruct (Z.geb_spec rem (Z.of_nat (batch_size b))) as [_ | Hlt]; [| lia].
      destruct (Z.eqb_spec (rem - Z.of_nat (batch_size b)) 0) as [E | _]; [lia |].
      rewrite (IH (pl ++ p) (al ++ a) (rem - Z.of_nat (batch_size b)) w1 ls w');
        [| lia | exact Hrest | exact Hlen'].
      rewrite !firstn_app, Hp, Ha.
      assert (Hp' : (List.length p <= Z.to_nat rem)%nat) by lia.
      assert (Ha' : (List.length a <= Z.to_nat rem)%nat) by lia.
      rewrite (firstn_all2 p Hp'), (firstn_all2 a Ha').
      replace (Z.to_nat rem - batch_size b)%nat
        with (Z.to_nat (rem - Z.of_nat (batch_size b))) by lia.
      rewrite <- !app_assoc. reflexivity.
Qed.

(** A limit above the number of examples never truncates and never stops
    the loop early: the run is the run without a limit. *)
Lemma check_score_loop_above_total (num_samples : Z) (batches : list Batch) :
  forall pred_list actual_list rem_count rem_count' w,
    total_examples batches < rem_count ->
    check_score_loop num_samples batches pred_list actual_list rem_count w
    = check_score_loop 0 batches pred_list actual_list rem_count' w.
Proof.
  induction batches as [| b rest IH]; intros pl al rem rem' w Hrem; simpl.
  - reflexivity.
  - rewrite total_examples_cons in Hrem. pose proof (total_examples_nonneg rest).
    unfold bind. destruct (batch_labels b w) as [[[p a] w1] | e]; [| reflexivity].
    destruct (Z.eqb_spec num_samples 0) as [E | _].
    + subst. rewrite !check_score_loop_all. reflexivity.
    + destruct (Z.geb_spec rem (Z.of_nat (batch_size b))) as [_ | Hlt]; [| lia].
      destruct (Z.eqb_spec (rem - Z.of_nat (batch_size b)) 0) as [E | _]; [lia |].
      apply IH. lia.
Qed.

End Scoring.

(** C3: the sample limit of [check_score_cm].  With [num_samples = 0] the
    loop accumulates the predicted and actual labels of every example of
    every batch.  With [num_samples = n > 0] it pulls batches only until the
    limit is filled, keeps the first [n] label pairs of what they hold
    (whole batches while they fit, the last one truncated) and so
    accumulates [min(n, dataset size)] pairs, leaving the later batches
    unread.  With [n = 5] and batches of size 4 and 4 it keeps the four pairs
    of the first batch and one pair of the second; a third batch is never
    pulled. *)
Theorem check_score_cm_sample_limit :
  (forall (F : Type) (NumF : Num F) (B : Backend F)
          (body headline ans : string) (w : World),
      check_score_pairs body headline ans 0 w =
      match mapM batch_labels (custom_get_batch_generator body headline ans false) w with
      | Raises e => Raises e
      | Returns (labels, w') =>
          Returns ((concat (map fst labels), concat (map snd labels), []), w')
      end)
  /\ (forall (F : Type) (NumF : Num F) (B : Backend F)
             (body headline ans : string) (w : World) (n : Z)
             (labels : list (list string * list string)) (w' : World),
        let batches := custom_get_batch_generator body headline ans false in
        let pulled := batches_needed n batches in
        0 < n ->
        mapM batch_labels (firstn pulled batches) w = Returns (labels, w') ->
        Forall2 (fun b l => List.length (fst l) = batch_size b)
          (firstn pulled batches) labels ->
        check_score_pairs body headline ans n w
        = Returns ((firstn (Z.to_nat n) (concat (map fst labels)),
                    firstn (Z.to_nat n) (concat (map snd labels)),
                    skipn pulled batches), w')
        /\ Z.of_nat (List.length (firstn (Z.to_nat n) (concat (map fst labels))))
           = Z.min n (total_examples batches)
        /\ Z.of_nat (List.length (firstn (Z.to_nat n) (concat (map snd labels))))
           = Z.min n (total_examples batches))
  /\ (forall s : Z * Z,
        value_of (@check_score_pairs Q _ two_batches_backend "dev" "dev" "dev" 5
                    (@QAModel_init Q two_batches_backend (toy_flags 1 1) s))
        = Returns (["agree"; "agree"; "agree"; "agree"; "disagree"]%string,
                   ["agree"; "agree"; "agree"; "agree"; "disagree"]%string,
                   []))
  /\ (forall s : Z * Z,
        value_of (@check_score_pairs Q _ three_batches_backend "dev" "dev" "dev" 5
                    (@QAModel_init Q three_batches_backend (toy_flags 1 1) s))
        = Returns (["agree"; "agree"; "agree"; "agree"; "disagree"]%string,
                   ["agree"; "agree"; "agree"; "agree"; "disagree"]%string,
                   [toy_batch 1 1 2 4])).
Proof.
  split; [| split; [| split]].
  - intros. unfold check_score_pairs. rewrite check_score_loop_all. reflexivity.
  - intros F NumF B body headline ans w n labels w' batches pulled Hn Hrun Hlen.
    split; [| split].
    + unfold check_score_pairs.
      rewrite (check_score_loop_limited n batches) with (labels := labels) (w' := w');
        [reflexivity | lia | exact Hn | exact Hrun | exact Hlen].
    + rewrite length_firstn, Nat2Z.inj_min, Z2Nat.id, (labels_length_total fst _ _ Hlen)
        by lia.
      apply batches_needed_total. exact Hn.
    + pose proof (mapM_batch_labels_actual _ _ _ _ Hrun) as Hact.
      rewrite length_firstn, Nat2Z.inj_min, Z2Nat.id, (labels_length_total snd _ _ Hact)
        by lia.
      apply batches_needed_total. exact Hn.
  - intros [step noise]. vm_compute. reflexivity.
  - intros [step noise]. vm_compute. reflexivity.
Qed.

Lemma check_score_cm_sample_limit_witness :
  @check_score_pairs Q _ three_batches_backend "dev" "dev" "dev" 5
    (@QAModel_init Q three_batches_backend (toy_flags 1 1) (0, 0))
  = Returns ((firstn 5 (repeat "agree"%string 4 ++ repeat "disagree"%string 4),
              firstn 5 (repeat "agree"%string 4 ++ repeat "disagree"%string 4),
              [toy_batch 1 1 2 4]),
             set_session (@QAModel_init Q three_batches_backend (toy_flags 1 1) (0, 0))
               (0, 2)).
Proof.
  apply (proj1 (proj2 check_score_cm_sample_limit) Q _ three_batches_backend
           "dev"%string "dev"%string "dev"%string
           (@QAModel_init Q three_batches_backend (toy_flags 1 1) (0, 0)) 5
           [(repeat "agree"%string 4, repeat "agree"%string 4);
            (repeat "disagree"%string 4, repeat "disagree"%string 4)]).
  - lia.
  - vm_compute. reflexivity.
  - repeat constructor.
Defined.

(** C10: a sample limit above the number of examples is only an upper
    bound: the loop runs exactly as it does without a limit, so it reads
    every batch, collects every label pair and hands them all to the scorer;
    the limit itself raises nothing. *)
Theorem check_score_cm_limit_above_dataset :
  forall (F : Type) (NumF : Num F) (B : Backend F)
         (body headline ans : string) (n : Z) (w : World),
    total_examples (custom_get_batch_generator body headline ans false) < n ->
    check_score_pairs body headline ans n w = check_score_pairs body headline ans 0 w
    /\ check_score_cm body headline ans n w = check_score_cm body headline ans 0 w
    /\ (forall labels w',
          mapM batch_labels (custom_get_batch_generator body headline ans false) w
            = Returns (labels, w') ->
          check_score_pairs body headline ans n w
          = Returns ((concat (map fst labels), concat (map snd labels), []), w')
          /\ check_score_cm body headline ans n w
             = lift (report_score (concat (map snd labels)) (concat (map fst labels))) w').
Proof.
  intros F NumF B body headline ans n w Hn.
  assert (Hpairs : check_score_pairs body headline ans n w
                   = check_score_pairs body headline ans 0 w).
  { unfold check_score_pairs. apply check_score_loop_above_total. exact Hn. }
  split; [exact Hpairs | split].
  - unfold check_score_cm, bind. rewrite Hpairs. reflexivity.
  - intros labels w' Hrun.
    assert (Hall : check_score_pairs body headline ans n w
                   = Returns ((concat (map fst labels), concat (map snd labels), []), w')).
    { rewrite Hpairs. unfold check_score_pairs.
      rewrite check_score_loop_all, Hrun. reflexivity. }
    split; [exact Hall |].
    unfold check_score_cm, bind. rewrite Hall. reflexivity.
Qed.

Lemma check_score_cm_limit_above_dataset_witness :
  @check_score_cm Q _ three_batches_backend "dev" "dev" "dev" 1000
    (@QAModel_init Q three_batches_backend (toy_flags 1 1) (0, 0))
  = @check_score_cm Q _ three_batches_backend "dev" "dev" "dev" 0
      (@QAModel_init Q three_batches_backend (toy_flags 1 1) (0, 0)).
Proof.
  apply (check_score_cm_limit_above_dataset Q _ three_batches_backend
           "dev" "dev" "dev" 1000).
  vm_compute. reflexivity.
Defined.

Section EarlyStopping.

Context {F : Type} {NumF : Num F} {B : Backend F}.

Lemma save_Returns (sl : slot) (path : string) (step : Z) (w : World) :
  write_checkpoint path step (session w) = None ->
  save sl path step w =
  Returns (tt, log_checkpoint
                 (set_saver sl w
                    (Saver_save (get_saver sl w) step (variables (session w))))
                 sl path step).
Proof. intros H. unfold save. rewrite H. reflexivity. Qed.

Lemma score_improves_iff (st : TrainState) (dev_score : F) :
  score_improves st dev_score = true <->
  best_subm_score st = None
  \/ exists best, best_subm_score st = Some best /\ flt best dev_score = true.
Proof.
  unfold score_improves. destruct (best_subm_score st) as [best |]; split.
  - intros H. right. exists best. split; [reflexivity | exact H].
  - intros [H | (b & Hb & H)]; [discriminate H | inversion Hb; subst; exact H].
  - intros _. left. reflexivity.
  - intros _. reflexivity.
Qed.

Lemma loss_improves_iff (st : TrainState) (dev_loss : F) :
  loss_improves st dev_loss = true <->
  lowest_dev_loss st = None
  \/ exists lowest, lowest_dev_loss st = Some lowest /\ flt dev_loss lowest = true.
Proof.
  unfold loss_improves. destruct (lowest_dev_loss st) as [lowest |]; split.
  - intros H. right. exists lowest. split; [reflexivity | exact H].
  - intros [H | (b & Hb & H)]; [discriminate H | inversion Hb; subst; exact H].
  - intros _. left. reflexivity.
  - intros _. reflexivity.
Qed.

(** What the two tests leave behind when the disk accepts the writes. *)
Lemma early_stopping_run (FLAGS : Flags F) (st : TrainState)
    (dev_score dev_loss : F) (global_step : Z) (w : World) :
  write_checkpoint (bestmodel_ckpt_path FLAGS) global_step (session w) = None ->
  write_checkpoint (bestmodel_dev_loss_ckpt_path FLAGS) global_step (session w) = None ->
  exists st' w',
    early_stopping FLAGS st dev_score dev_loss global_step w = Returns (st', w')
    /\ checkpoints_written w' =
       checkpoints_written w
       ++ (if score_improves st dev_score
           then [(BestByScore, bestmodel_ckpt_path FLAGS, global_step)] else [])
       ++ (if loss_improves st dev_loss
           then [(BestByLoss, bestmodel_dev_loss_ckpt_path FLAGS, global_step)] else [])
    /\ best_subm_score st' =
       (if score_improves st dev_score then Some dev_score else best_subm_score st)
    /\ lowest_dev_loss st' =
       (if loss_improves st dev_loss then Some dev_loss else lowest_dev_loss st)
    /\ bestmodel_saver w' =
       (if score_improves st dev_score
        then Saver_save (bestmodel_saver w) global_step (variables (session w))
        else bestmodel_saver w)
    /\ bestmodel_dev_loss_saver w' =
       (if loss_improves st dev_loss
        then Saver_save (bestmodel_dev_loss_saver w) global_step (variables (session w))
        else bestmodel_dev_loss_saver w)
    /\ saver w' = saver w /\ session w' = session w.
Proof.
  intros Hscore Hloss. unfold early_stopping, bind.
  destruct (score_improves st dev_score) eqn:Es.
  - rewrite (save_Returns _ _ _ _ Hscore). unfold ret.
    change (loss_improves
              {| exp_loss := exp_loss st; best_subm_score := Some dev_score;
                 lowest_dev_loss := lowest_dev_loss st; epoch := epoch st |} dev_loss)
      with (loss_improves st dev_loss).
    destruct (loss_improves st dev_loss) eqn:El.
    + rewrite save_Returns by exact Hloss. unfold ret.
      eexists; eexists; split; [reflexivity |]. simpl.
      rewrite <- app_assoc. repeat split; reflexivity.
    + unfold ret. eexists; eexists; split; [reflexivity |]. simpl.
      repeat split; reflexivity.
  - unfold ret. destruct (loss_improves st dev_loss) eqn:El.
    + rewrite save_Returns by exact Hloss. unfold ret.
      eexists; eexists; split; [reflexivity |]. simpl.
      repeat split; reflexivity.
    + unfold ret. eexists; eexists; split; [reflexivity |]. simpl.
      rewrite app_nil_r. repeat split; reflexivity.
Qed.

End EarlyStopping.

(** C4: at an evaluation (the disk accepting the writes) the best-by-score
    checkpoint is written if and only if the dev score strictly exceeds the
    best score so far or there is none yet, and the best-by-loss checkpoint
    if and only if the dev loss is strictly below the lowest loss so far or
    there is none yet; each criterion updates its own record and its own
    saver only, so one evaluation can write none, either one, or both. *)
Theorem early_stopping_criteria_independent :
  (forall (F : Type) (NumF : Num F) (B : Backend F) (FLAGS : Flags F)
          (st : TrainState) (dev_score dev_loss : F) (global_step : Z) (w : World),
      write_checkpoint (bestmodel_ckpt_path FLAGS) global_step (session w) = None ->
      write_checkpoint (bestmodel_dev_loss_ckpt_path FLAGS) global_step (session w)
        = None ->
      exists st' w' written,
        early_stopping FLAGS st dev_score dev_loss global_step w = Returns (st', w')
        /\ checkpoints_written w' = checkpoints_written w ++ written
        /\ (In (BestByScore, bestmodel_ckpt_path FLAGS, global_step) written <->
            best_subm_score st = None
            \/ exists best, best_subm_score st = Some best /\ flt best dev_score = true)
        /\ (In (BestByLoss, bestmodel_dev_loss_ckpt_path FLAGS, global_step) written <->
            lowest_dev_loss st = None
            \/ exists lowest,
                 lowest_dev_loss st = Some lowest /\ flt dev_loss lowest = true)
        /\ (forall entry, In entry written ->
              entry = (BestByScore, bestmodel_ckpt_path FLAGS, global_step)
              \/ entry = (BestByLoss, bestmodel_dev_loss_ckpt_path FLAGS, global_step))
        /\ best_subm_score st' =
           (if score_improves st dev_score then Some dev_score else best_subm_score st)
        /\ lowest_dev_loss st' =
           (if loss_improves st dev_loss then Some dev_loss else lowest_dev_loss st)
        /\ bestmodel_saver w' =
           (if score_improves st dev_score
            then Saver_save (bestmodel_saver w) global_step (variables (session w))
            else bestmodel_saver w)
        /\ bestmodel_dev_loss_saver w' =
           (if loss_improves st dev_loss
            then Saver_save (bestmodel_dev_loss_saver w) global_step
                   (variables (session w))
            else bestmodel_dev_loss_saver w))
  /\ early_stopping_writes 4 3 = Returns []
  /\ early_stopping_writes 6 3
     = Returns [(BestByScore, "experiments/best_checkpoint/qa_best.ckpt"%string, 7)]
  /\ early_stopping_writes 4 1
     = Returns [(BestByLoss,
                 "experiments/best_checkpoint_dev_loss/qa_best_dev_loss.ckpt"%string, 7)]
  /\ early_stopping_writes 6 1
     = Returns [(BestByScore, "experiments/best_checkpoint/qa_best.ckpt"%string, 7);
                (BestByLoss,
                 "experiments/best_checkpoint_dev_loss/qa_best_dev_loss.ckpt"%string, 7)].
Proof.
  split; [| repeat split; vm_compute; reflexivity].
  intros F NumF B FLAGS st dev_score dev_loss global_step w Hscore Hloss.
  destruct (early_stopping_run FLAGS st dev_score dev_loss global_step w Hscore Hloss)
    as (st' & w' & Hrun & Hlog & Hbest & Hlowest & Hsv1 & Hsv2 & _ & _).
  exists st', w'. eexists. split; [exact Hrun |]. split; [exact Hlog |].
  rewrite <- score_improves_iff, <- loss_improves_iff.
  repeat split; try assumption.
  - intros Hin. apply in_app_or in Hin. destruct Hin as [Hin | Hin].
    + destruct (score_improves st dev_score); [reflexivity | destruct Hin].
    + destruct (loss_improves st dev_loss); [| destruct Hin].
      destruct Hin as [Hin | []]. discriminate Hin.
  - intros Hs. rewrite Hs. apply in_or_app. left. left. reflexivity.
  - intros Hin. apply in_app_or in Hin. destruct Hin as [Hin | Hin].
    + destruct (score_improves st dev_score); [| destruct Hin].
      destruct Hin as [Hin | []]. discriminate Hin.
    + destruct (loss_improves st dev_loss); [reflexivity | destruct Hin].
  - intros Hl. rewrite Hl. apply in_or_app. right. left. reflexivity.
  - intros entry Hin. apply in_app_or in Hin. destruct Hin as [Hin | Hin].
    + destruct (score_improves st dev_score); [| destruct Hin].
      destruct Hin as [Hin | []]. left. symmetry. exact Hin.
    + destruct (loss_improves st dev_loss); [| destruct Hin].
      destruct Hin as [Hin | []]. right. symmetry. exact Hin.
Qed.

Lemma early_stopping_criteria_independent_witness :
  exists st' w' written,
    @early_stopping Q _ four_steps_backend (toy_flags 1 1)
      {| exp_loss := None; best_subm_score := Some 5%Q;
         lowest_dev_loss := Some 2%Q; epoch := 1 |}
      4%Q 1%Q 7 (@QAModel_init Q four_steps_backend (toy_flags 1 1) (0, 0))
    = Returns (st', w')
    /\ checkpoints_written w' = [] ++ written
    /\ best_subm_score st' = Some 5%Q
    /\ lowest_dev_loss st' = Some 1%Q.
Proof.
  destruct (proj1 early_stopping_criteria_independent Q _ four_steps_backend
              (toy_flags 1 1)
              {| exp_loss := None; best_subm_score := Some 5%Q;
                 lowest_dev_loss := Some 2%Q; epoch := 1 |}
              4%Q 1%Q 7 (@QAModel_init Q four_steps_backend (toy_flags 1 1) (0, 0))
              eq_refl eq_refl)
    as (st' & w' & written & Hrun & Hlog & _ & _ & _ & Hbest & Hlowest & _).
  exists st', w', written. repeat split; assumption.
Defined.

(** ** Retention *)

Section Retention.

Context {F : Type} {NumF : Num F} {B : Backend F}.

Lemma Saver_save_length {P : Type} (sv : Saver P) (step : Z) (snapshot : P) :
  List.length (kept (Saver_save sv step snapshot))
  = Nat.min (S (List.length (kept sv))) (max_to_keep sv).
Proof.
  unfold Saver_save. cbn [kept max_to_keep].
  rewrite length_skipn, length_app. cbn [List.length]. lia.
Qed.

Lemma Saver_save_bounded {P : Type} (k : nat) (sv : Saver P) (step : Z) (snapshot : P) :
  max_to_keep sv = k -> slot_bounded k (Saver_save sv step snapshot).
Proof.
  intros Hk. split; [exact Hk |]. rewrite Saver_save_length. lia.
Qed.

Lemma Saver_save_evicts_oldest {P : Type} (sv : Saver P) (step : Z) (snapshot : P) :
  (0 < max_to_keep sv)%nat ->
  List.length (kept sv) = max_to_keep sv ->
  kept (Saver_save sv step snapshot) = tl (kept sv) ++ [(step, snapshot)].
Proof.
  intros Hpos Hfull. unfold Saver_save. simpl. rewrite length_app. simpl.
  replace (List.length (kept sv) + 1 - max_to_keep sv)%nat with 1%nat by lia.
  destruct (kept sv) as [| x l]; [simpl in Hfull; lia | reflexivity].
Qed.

Lemma Saver_save_single {P : Type} (sv : Saver P) (step : Z) (snapshot : P) :
  slot_bounded 1 sv -> kept (Saver_save sv step snapshot) = [(step, snapshot)].
Proof.
  intros [Hk Hlen]. unfold Saver_save. simpl. rewrite length_app, Hk. simpl.
  destruct (kept sv) as [| x [| y l]]; simpl in *; [reflexivity | reflexivity | lia].
Qed.

Variable FLAGS : Flags F.

Lemma preserves_ret {A : Type} (I : World -> Prop) (a : A) : preserves I (ret a).
Proof. intros w x w' HI H. inversion H; subst. exact HI. Qed.

Lemma preserves_lift {A : Type} (I : World -> Prop) (r : outcome A) :
  preserves I (lift r).
Proof. intros w x w' HI H. apply lift_inv in H. destruct H as [_ ->]. exact HI. Qed.

Lemma preserves_bind {A C : Type} (I : World -> Prop) (c : M A) (k : A -> M C) :
  preserves I c -> (forall a, preserves I (k a)) -> preserves I (bind c k).
Proof.
  intros Hc Hk w x w' HI H. apply bind_inv in H. destruct H as (a & w1 & H1 & H2).
  eapply Hk; [| exact H2]. eapply Hc; [exact HI | exact H1].
Qed.

Lemma preserves_session_run {A : Type}
    (op : Session -> feed_dict F -> F -> outcome (A * Session)) (feed : feed_dict F) :
  preserves (slots_bounded FLAGS) (session_run op feed).
Proof.
  intros w a w' HI H. unfold session_run in H.
  destruct (resolve_keep_prob feed) as [kp | e]; [| discriminate H].
  destruct (op (session w) feed kp) as [[x s'] | e]; [| discriminate H].
  inversion H; subst. exact HI.
Qed.

Lemma preserves_add_summary (summary : Summary F) (step : Z) :
  preserves (slots_bounded FLAGS) (add_summary summary step).
Proof. intros w a w' HI H. inversion H; subst. exact HI. Qed.

Lemma preserves_save (sl : slot) (path : string) (step : Z) :
  preserves (slots_bounded FLAGS) (save sl path step).
Proof.
  intros w a w' (H1 & H2 & H3) H. unfold save in H.
  destruct (write_checkpoint path step (session w)); [discriminate H |].
  inversion H; subst. clear H.
  destruct sl; unfold slots_bounded; simpl; (split; [| split]); try assumption;
    apply Saver_save_bounded; [apply H1 | apply H2 | apply H3].
Qed.

End Retention.

Create HintDb preserve.

#[local] Hint Resolve preserves_ret preserves_lift preserves_session_run
  preserves_add_summary preserves_save : preserve.

(** One structural step of a preservation proof. *)
Ltac preserves_step :=
  lazymatch goal with
  | |- preserves _ (bind _ _) => apply preserves_bind; [| intros ?]
  | |- preserves _ (if ?b then _ else _) => destruct b
  | |- preserves _ (match ?x with pair _ _ => _ end) => destruct x
  | |- preserves _ _ => solve [eauto with preserve]
  end.

Section RetentionOfTheLoop.

Context {F : Type} {NumF : Num F} {B : Backend F}.
Variable FLAGS : Flags F.
Variable paths : Paths.

Lemma preserves_get_loss (b : Batch) : preserves (slots_bounded FLAGS) (get_loss b).
Proof. unfold get_loss. repeat preserves_step. Qed.

Lemma preserves_batch_labels (b : Batch) :
  preserves (slots_bounded FLAGS) (batch_labels b).
Proof.
  unfold batch_labels, get_class, get_class_prob_dist. repeat preserves_step.
Qed.

Lemma preserves_dev_loss_loop (batches : list Batch) :
  forall lpb bl, preserves (slots_bounded FLAGS) (dev_loss_loop batches lpb bl).
Proof.
  induction batches as [| b rest IH]; intros lpb bl; simpl.
  - repeat preserves_step.
  - apply preserves_bind; [apply preserves_get_loss | intros loss; apply IH].
Qed.

Lemma preserves_custom_get_dev_loss (body headline ans : string) :
  preserves (slots_bounded FLAGS) (custom_get_dev_loss body headline ans).
Proof.
  unfold custom_get_dev_loss.
  apply preserves_bind; [apply preserves_dev_loss_loop | intros [lpb bl]].
  repeat preserves_step.
Qed.

Lemma preserves_check_score_loop (n : Z) (batches : list Batch) :
  forall pl al rem, preserves (slots_bounded FLAGS) (check_score_loop n batches pl al rem).
Proof.
  induction batches as [| b rest IH]; intros pl al rem; simpl.
  - repeat preserves_step.
  - apply preserves_bind; [apply preserves_batch_labels | intros [p a]].
    destruct (n =? 0); [apply IH |].
    destruct (rem >=? Z.of_nat (batch_size b)).
    + destruct (rem - Z.of_nat (batch_size b) =? 0); [repeat preserves_step | apply IH].
    + simpl. repeat preserves_step.
Qed.

Lemma preserves_check_score_cm (body headline ans : string) (n : Z) :
  preserves (slots_bounded FLAGS) (check_score_cm body headline ans n).
Proof.
  unfold check_score_cm, check_score_pairs.
  apply preserves_bind; [apply preserves_check_score_loop | intros [[pl al] rest]].
  repeat preserves_step.
Qed.

Lemma preserves_early_stopping (st : TrainState) (ds dl : F) (gs : Z) :
  preserves (slots_bounded FLAGS) (early_stopping FLAGS st ds dl gs).
Proof. unfold early_stopping. repeat preserves_step. Qed.

Lemma preserves_evaluate (st : TrainState) (gs : Z) :
  preserves (slots_bounded FLAGS) (evaluate FLAGS paths st gs).
Proof.
  unfold evaluate, write_summary.
  apply preserves_bind; [apply preserves_custom_get_dev_loss | intros dev_loss].
  apply preserves_bind; [repeat preserves_step | intros _].
  apply preserves_bind; [apply preserves_check_score_cm | intros train_score].
  apply preserves_bind; [repeat preserves_step | intros _].
  apply preserves_bind; [apply preserves_check_score_cm | intros dev_score].
  apply preserves_bind; [repeat preserves_step | intros _].
  apply preserves_early_stopping.
Qed.

Lemma preserves_train_step (st : TrainState) (b : Batch) :
  preserves (slots_bounded FLAGS) (train_step FLAGS paths st b).
Proof.
  unfold train_step, run_train_iter, scheduled_save, scheduled_eval.
  apply preserves_bind; [repeat preserves_step | intros [[[loss gs] pn] gn]].
  apply preserves_bind; [repeat preserves_step | intros _].
  apply preserves_bind; [repeat preserves_step | intros _].
  apply preserves_bind; [repeat preserves_step | intros r].
  destruct (r =? 0); [apply preserves_evaluate | repeat preserves_step].
Qed.

Lemma preserves_batch_loop (batches : list Batch) :
  forall st, preserves (slots_bounded FLAGS) (batch_loop FLAGS paths st batches).
Proof.
  induction batches as [| b rest IH]; intros st; simpl.
  - repeat preserves_step.
  - apply preserves_bind; [apply preserves_train_step | intros st'; apply IH].
Qed.

Lemma epoch_loop_slots_bounded (fuel : nat) :
  forall st w st' w',
    slots_bounded FLAGS w ->
    epoch_loop fuel FLAGS paths st w = Some (Returns (st', w')) ->
    slots_bounded FLAGS w'.
Proof.
  induction fuel as [| fuel IH]; intros st w st' w' HI H; simpl in H.
  - discriminate H.
  - destruct (loop_condition FLAGS st).
    + destruct (run_epoch FLAGS paths st w) as [[st1 w1] | e] eqn:Hep; [| discriminate H].
      apply (IH st1 w1 st' w'); [| exact H].
      eapply preserves_batch_loop; [exact HI | exact Hep].
    + inversion H; subst. exact HI.
Qed.

End RetentionOfTheLoop.

(** C5: every checkpoint slot stays within its retention count.  In the
    checkpoint manager modelled from the specification a save never leaves
    more than the slot's count, a save into a full slot evicts the oldest
    entry (retention 3 after saves at steps 1 to 4 holds steps 2, 3, 4), and
    a slot of retention 1 holds exactly the last save.  [__init__] gives the
    most-recent slot the configured count [keep] and each best slot the
    count 1, and [custom_train] keeps the three slots within these counts. *)
Theorem checkpoint_slots_bounded :
  (forall (P : Type) (sv : Saver P) (step : Z) (snapshot : P),
      max_to_keep (Saver_save sv step snapshot) = max_to_keep sv
      /\ (List.length (kept (Saver_save sv step snapshot)) <= max_to_keep sv)%nat)
  /\ (forall (P : Type) (sv : Saver P) (step : Z) (snapshot : P),
        (0 < max_to_keep sv)%nat ->
        List.length (kept sv) = max_to_keep sv ->
        kept (Saver_save sv step snapshot) = tl (kept sv) ++ [(step, snapshot)])
  /\ Saver_steps four_saves = [2; 3; 4]
  /\ (forall (P : Type) (sv : Saver P) (step : Z) (snapshot : P),
        slot_bounded 1 sv -> kept (Saver_save sv step snapshot) = [(step, snapshot)])
  /\ (forall (F : Type) (NumF : Num F) (B : Backend F) (FLAGS : Flags F) (s : Session),
        max_to_keep (saver (QAModel_init FLAGS s)) = keep FLAGS
        /\ max_to_keep (bestmodel_saver (QAModel_init FLAGS s)) = 1%nat
        /\ max_to_keep (bestmodel_dev_loss_saver (QAModel_init FLAGS s)) = 1%nat
        /\ slots_bounded FLAGS (QAModel_init FLAGS s))
  /\ (forall (F : Type) (NumF : Num F) (B : Backend F) (FLAGS : Flags F)
             (paths : Paths) (fuel : nat) (w : World) (st : TrainState) (w' : World),
        slots_bounded FLAGS w ->
        custom_train fuel FLAGS paths w = Some (Returns (st, w')) ->
        slots_bounded FLAGS w')
  /\ option_map (outcome_map (fun r => slot_steps (snd r)))
       (@custom_train Q _ four_steps_backend 2 (toy_flags 1 1) toy_paths
          (@QAModel_init Q four_steps_backend (toy_flags 1 1) (0, 0)))
     = Some (Returns ([2; 3; 4], [1], [1])).
Proof.
  split; [| split; [| split; [| split; [| split; [| split]]]]].
  - intros P sv step snapshot. split; [reflexivity |].
    rewrite Saver_save_length. lia.
  - intros P sv step snapshot. apply Saver_save_evicts_oldest.
  - reflexivity.
  - intros P sv step snapshot. apply Saver_save_single.
  - intros F NumF B FLAGS s. repeat split; simpl; lia.
  - intros F NumF B FLAGS paths fuel w st w' HI Hrun.
    eapply epoch_loop_slots_bounded; [exact HI | exact Hrun].
  - vm_compute. reflexivity.
Qed.

Lemma checkpoint_slots_bounded_witness :
  kept four_saves = [(2, tt); (3, tt)] ++ [(4, tt)]
  /\ kept (Saver_save (Saver_save (Saver_new 1) 1 tt) 2 tt) = [(2, tt)]
  /\ slots_bounded (toy_flags 1 1)
       (@QAModel_init Q no_data_backend (toy_flags 1 1) (0, 0)).
Proof.
  split; [| split].
  - apply (proj1 (proj2 checkpoint_slots_bounded) unit
             (Saver_save (Saver_save (Saver_save (Saver_new 3) 1 tt) 2 tt) 3 tt) 4 tt).
    + simpl. lia.
    + reflexivity.
  - apply (proj1 (proj2 (proj2 (proj2 checkpoint_slots_bounded))) unit
             (Saver_save (Saver_new 1) 1 tt) 2 tt).
    split; [reflexivity | simpl; lia].
  - eapply (proj1 (proj2 (proj2 (proj2 (proj2 (proj2 checkpoint_slots_bounded)))))
              Q _ no_data_backend (toy_flags 1 1) toy_paths 2%nat
              (@QAModel_init Q no_data_backend (toy_flags 1 1) (0, 0))).
    + repeat split; simpl; lia.
    + vm_compute. reflexivity.
Defined.

(** ** The epoch loop *)

(** Splits the first step off a successful sequence of binds. *)
Ltac invert_bind H :=
  let a := fresh "a" in
  let w := fresh "w" in
  let H1 := fresh "Hstep" in
  apply bind_inv in H; destruct H as (a & w & H1 & H).

Section EpochLoop.

Context {F : Type} {NumF : Num F} {B : Backend F}.
Variable FLAGS : Flags F.
Variable paths : Paths.

Lemma early_stopping_epoch (st : TrainState) (ds dl : F) (gs : Z) w st' w' :
  early_stopping FLAGS st ds dl gs w = Returns (st', w') -> epoch st' = epoch st.
Proof.
  unfold early_stopping. intros H.
  apply bind_inv in H. destruct H as (st1 & w1 & H1 & H).
  assert (E1 : epoch st1 = epoch st).
  { destruct (score_improves st ds).
    - invert_bind H1. inversion H1; subst. reflexivity.
    - inversion H1; subst. reflexivity. }
  destruct (loss_improves st1 dl).
  - invert_bind H. inversion H; subst. exact E1.
  - inversion H; subst. exact E1.
Qed.

Lemma train_step_epoch (st : TrainState) (b : Batch) w st' w' :
  train_step FLAGS paths st b w = Returns (st', w') -> epoch st' = epoch st.
Proof.
  unfold train_step. intros H.
  apply bind_inv in H. destruct H as ([[[loss gs] pn] gn] & w1 & _ & H).
  apply bind_inv in H. destruct H as (r1 & w2 & _ & H).
  apply bind_inv in H. destruct H as (u & w3 & _ & H).
  unfold scheduled_eval in H.
  apply bind_inv in H. destruct H as (r & w4 & _ & H).
  destruct (r =? 0).
  - unfold evaluate in H. do 6 invert_bind H.
    apply early_stopping_epoch in H. exact H.
  - inversion H; subst. reflexivity.
Qed.

Lemma batch_loop_epoch (batches : list Batch) :
  forall st w st' w',
    batch_loop FLAGS paths st batches w = Returns (st', w') -> epoch st' = epoch st.
Proof.
  induction batches as [| b rest IH]; intros st w st' w' H; simpl in H.
  - inversion H; subst. reflexivity.
  - apply bind_inv in H. destruct H as (st1 & w1 & H1 & H).
    apply IH in H. apply train_step_epoch in H1. congruence.
Qed.

Lemma run_epoch_epoch (st : TrainState) w st' w' :
  run_epoch FLAGS paths st w = Returns (st', w') -> epoch st' = epoch st + 1.
Proof. unfold run_epoch. intros H. apply batch_loop_epoch in H. exact H. Qed.

(** A positive budget: the loop stops, and if it returns it has counted
    the budget. *)
Lemma epoch_loop_positive_budget (fuel : nat) :
  forall st w,
    0 < num_epochs FLAGS ->
    epoch st <= num_epochs FLAGS ->
    (Z.to_nat (num_epochs FLAGS - epoch st) < fuel)%nat ->
    exists r,
      epoch_loop fuel FLAGS paths st w = Some r
      /\ forall st' w', r = Returns (st', w') -> epoch st' = num_epochs FLAGS.
Proof.
  induction fuel as [| fuel IH]; intros st w Hpos Hle Hfuel; [lia |].
  simpl. unfold loop_condition.
  destruct (Z.eqb_spec (num_epochs FLAGS) 0) as [E | _]; [lia |]. simpl.
  destruct (Z.ltb_spec (epoch st) (num_epochs FLAGS)) as [Hlt | Hge].
  - destruct (run_epoch FLAGS paths st w) as [[st1 w1] | e] eqn:Hep.
    + apply run_epoch_epoch in Hep. apply IH; lia.
    + exists (Raises e). split; [reflexivity | intros st' w' H; discriminate H].
  - exists (Returns (st, w)). split; [reflexivity |].
    intros st' w' H. inversion H; subst. lia.
Qed.

(** A zero budget: the loop never returns. *)
Lemma epoch_loop_zero_budget (fuel : nat) :
  forall st w,
    num_epochs FLAGS = 0 ->
    epoch_loop fuel FLAGS paths st w = None
    \/ exists e, epoch_loop fuel FLAGS paths st w = Some (Raises e).
Proof.
  induction fuel as [| fuel IH]; intros st w Hzero; [left; reflexivity |].
  simpl. unfold loop_condition. rewrite Hzero. simpl.
  destruct (run_epoch FLAGS paths st w) as [[st1 w1] | e].
  - apply IH. exact Hzero.
  - right. exists e. reflexivity.
Qed.

Hypothesis epochs_succeed :
  forall st w, exists st' w', run_epoch FLAGS paths st w = Returns (st', w').

Lemma epoch_loop_positive_budget_returns (fuel : nat) :
  forall st w,
    0 < num_epochs FLAGS ->
    epoch st <= num_epochs FLAGS ->
    (Z.to_nat (num_epochs FLAGS - epoch st) < fuel)%nat ->
    exists st' w',
      epoch_loop fuel FLAGS paths st w = Some (Returns (st', w'))
      /\ epoch st' = num_epochs FLAGS.
Proof.
  induction fuel as [| fuel IH]; intros st w Hpos Hle Hfuel; [lia |].
  simpl. unfold loop_condition.
  destruct (Z.eqb_spec (num_epochs FLAGS) 0) as [E | _]; [lia |]. simpl.
  destruct (Z.ltb_spec (epoch st) (num_epochs FLAGS)) as [Hlt | Hge].
  - destruct (epochs_succeed st w) as (st1 & w1 & Hep). rewrite Hep.
    apply run_epoch_epoch in Hep. apply IH; lia.
  - exists st, w. split; [reflexivity | lia].
Qed.

Lemma epoch_loop_zero_budget_runs_on (fuel : nat) :
  forall st w, num_epochs FLAGS = 0 -> epoch_loop fuel FLAGS paths st w = None.
Proof.
  induction fuel as [| fuel IH]; intros st w Hzero; [reflexivity |].
  simpl. unfold loop_condition. rewrite Hzero. simpl.
  destruct (epochs_succeed st w) as (st1 & w1 & Hep). rewrite Hep.
  apply IH. exact Hzero.
Qed.

End EpochLoop.

(** C6: the epoch budget.  With a positive budget the loop of
    [custom_train] stops after the budget has been counted: given fuel for
    one more test of the condition than the budget it ends, and where it
    returns the epoch counter equals the budget; where no epoch raises it
    does return.  With a zero budget it never returns: however much fuel it
    is given it is still running, unless an epoch raised; where no epoch
    raises it is still running at every fuel. *)
Theorem custom_train_epoch_budget :
  forall (F : Type) (NumF : Num F) (B : Backend F) (FLAGS : Flags F)
         (paths : Paths) (w : World),
    (0 < num_epochs FLAGS ->
     forall fuel, (Z.to_nat (num_epochs FLAGS) < fuel)%nat ->
       exists r,
         custom_train fuel FLAGS paths w = Some r
         /\ forall st w', r = Returns (st, w') -> epoch st = num_epochs FLAGS)
    /\ (num_epochs FLAGS = 0 ->
        forall fuel,
          custom_train fuel FLAGS paths w = None
          \/ exists e, custom_train fuel FLAGS paths w = Some (Raises e))
    /\ ((forall st w0, exists st' w', run_epoch FLAGS paths st w0 = Returns (st', w')) ->
        (0 < num_epochs FLAGS ->
         forall fuel, (Z.to_nat (num_epochs FLAGS) < fuel)%nat ->
           exists st w',
             custom_train fuel FLAGS paths w = Some (Returns (st, w'))
             /\ epoch st = num_epochs FLAGS)
        /\ (num_epochs FLAGS = 0 ->
            forall fuel, custom_train fuel FLAGS paths w = None)).
Proof.
  intros F NumF B FLAGS paths w. unfold custom_train. split; [| split].
  - intros Hpos fuel Hfuel. apply epoch_loop_positive_budget; simpl; lia.
  - intros Hzero fuel. apply epoch_loop_zero_budget. exact Hzero.
  - intros Hok. split.
    + intros Hpos fuel Hfuel.
      apply epoch_loop_positive_budget_returns; simpl; try lia. exact Hok.
    + intros Hzero fuel. apply epoch_loop_zero_budget_runs_on; assumption.
Qed.

Lemma custom_train_epoch_budget_witness :
  (exists st w',
     @custom_train Q _ no_data_backend 4 (toy_flags 3 1) toy_paths
       (@QAModel_init Q no_data_backend (toy_flags 3 1) (0, 0))
     = Some (Returns (st, w'))
     /\ epoch st = 3)
  /\ @custom_train Q _ no_data_backend 50 (toy_flags 0 1) toy_paths
       (@QAModel_init Q no_data_backend (toy_flags 0 1) (0, 0))
     = None.
Proof.
  split.
  - apply (proj1 (proj2 (proj2 (custom_train_epoch_budget Q _ no_data_backend
                                  (toy_flags 3 1) toy_paths
                                  (@QAModel_init Q no_data_backend (toy_flags 3 1) (0, 0))))
                   (fun st w0 => ex_intro _ _ (ex_intro _ _ eq_refl)))).
    + simpl. lia.
    + simpl. lia.
  - apply (proj2 (proj2 (proj2 (custom_train_epoch_budget Q _ no_data_backend
                                  (toy_flags 0 1) toy_paths
                                  (@QAModel_init Q no_data_backend (toy_flags 0 1) (0, 0))))
                   (fun st w0 => ex_intro _ _ (ex_intro _ _ eq_refl)))).
    reflexivity.
Defined.

(** ** Failures *)

Section Failures.

Context {F : Type} {NumF : Num F} {B : Backend F}.
Variable FLAGS : Flags F.
Variable paths : Paths.

(** A failing scheduled action fails the iteration. *)
Lemma train_step_raises (st : TrainState) (b : Batch) w loss gs pn gn w1 e :
  run_train_iter FLAGS b w = Returns ((loss, gs, pn, gn), w1) ->
  print_every FLAGS <> 0 ->
  (scheduled_save FLAGS gs w1 = Raises e
   \/ exists w2, scheduled_save FLAGS gs w1 = Returns (tt, w2)
                 /\ scheduled_eval FLAGS paths (record_loss st loss) gs w2 = Raises e) ->
  train_step FLAGS paths st b w = Raises e.
Proof.
  intros Hrun Hprint Hfail. unfold train_step.
  rewrite (bind_Returns _ _ _ _ _ Hrun).
  unfold bind at 1. unfold lift, py_mod.
  destruct (Z.eqb_spec (print_every FLAGS) 0) as [E | _]; [contradiction |].
  destruct Hfail as [Hsave | (w2 & Hsave & Heval)].
  - apply bind_Raises. exact Hsave.
  - rewrite (bind_Returns _ _ _ _ _ Hsave). exact Heval.
Qed.

(** A failing iteration fails the pass over the batches. *)
Lemma batch_loop_raises (pre : list Batch) :
  forall st b post w st1 w1 e,
    batch_loop FLAGS paths st pre w = Returns (st1, w1) ->
    train_step FLAGS paths st1 b w1 = Raises e ->
    batch_loop FLAGS paths st (pre ++ b :: post) w = Raises e.
Proof.
  induction pre as [| x pre IH]; intros st b post w st1 w1 e Hpre Hstep; simpl in *.
  - inversion Hpre; subst. apply bind_Raises. exact Hstep.
  - apply bind_inv in Hpre. destruct Hpre as (st2 & w2 & Hx & Hpre).
    rewrite (bind_Returns _ _ _ _ _ Hx). eapply IH; eassumption.
Qed.

(** A failing epoch fails the loop. *)
Lemma epoch_loop_raises (fuel : nat) (st : TrainState) w e :
  loop_condition FLAGS st = true ->
  run_epoch FLAGS paths st w = Raises e ->
  epoch_loop (S fuel) FLAGS paths st w = Some (Raises e).
Proof. intros Hc He. simpl. rewrite Hc, He. reflexivity. Qed.

Lemma epoch_loop_reaches (k : nat) x y :
  loop_reaches FLAGS paths k x y ->
  forall fuel,
    epoch_loop (k + fuel) FLAGS paths (fst x) (snd x)
    = epoch_loop fuel FLAGS paths (fst y) (snd y).
Proof.
  induction 1 as [x | k st w st' w' x Hc He _ IH]; intros fuel.
  - reflexivity.
  - simpl. rewrite Hc, He. apply IH.
Qed.

End Failures.

(** C7: no failure is caught.  Let the loop of [custom_train] have
    completed [k] epochs and be in an epoch whose pass has gone through the
    batches [pre]; if the training step on the next batch returns and the
    save or the evaluation scheduled after it raises [e], then
    [custom_train] raises [e]: it ends there, with that exception, for
    every fuel that lets it get that far.  So a dev set without batches ends
    the run with [ZeroDivisionError] at the first evaluation, and a full
    disk at step 2 ends it with the [IOError] of the write. *)
Theorem custom_train_propagates_failures :
  (forall (F : Type) (NumF : Num F) (B : Backend F) (FLAGS : Flags F) (paths : Paths)
          (w0 : World) (k : nat) (st : TrainState) (w : World)
          (pre : list Batch) (b : Batch) (post : list Batch)
          (st1 : TrainState) (w1 : World) (loss : F) (gs : Z) (pn gn : F)
          (w2 : World) (e : exn),
      loop_reaches FLAGS paths k (initial_state, w0) (st, w) ->
      loop_condition FLAGS st = true ->
      custom_get_batch_generator (train_body_path paths) (train_headline_path paths)
        (train_ans_path paths) true = pre ++ b :: post ->
      batch_loop FLAGS paths (begin_epoch st) pre w = Returns (st1, w1) ->
      run_train_iter FLAGS b w1 = Returns ((loss, gs, pn, gn), w2) ->
      print_every FLAGS <> 0 ->
      (scheduled_save FLAGS gs w2 = Raises e
       \/ exists w3, scheduled_save FLAGS gs w2 = Returns (tt, w3)
                     /\ scheduled_eval FLAGS paths (record_loss st1 loss) gs w3
                        = Raises e) ->
      forall fuel, (k < fuel)%nat ->
        custom_train fuel FLAGS paths w0 = Some (Raises e))
  /\ (forall fuel,
        @custom_train Q _ empty_dev_backend (S fuel) (toy_flags 1 1) toy_paths
          (@QAModel_init Q empty_dev_backend (toy_flags 1 1) (0, 0))
        = Some (Raises ZeroDivisionError))
  /\ (forall fuel,
        @custom_train Q _ disk_full_backend (S fuel) (toy_flags 1 1) toy_paths
          (@QAModel_init Q disk_full_backend (toy_flags 1 1) (0, 0))
        = Some (Raises (IOError 28))).
Proof.
  split; [| split].
  - intros F NumF B FLAGS paths w0 k st w pre b post st1 w1 loss gs pn gn w2 e
      Hreach Hcond Hgen Hpre Hrun Hprint Hfail fuel Hfuel.
    unfold custom_train.
    replace fuel with (k + S (fuel - S k))%nat by lia.
    rewrite (epoch_loop_reaches FLAGS paths k _ _ Hreach). simpl fst. simpl snd.
    apply epoch_loop_raises; [exact Hcond |].
    unfold run_epoch. rewrite Hgen.
    eapply batch_loop_raises; [exact Hpre |].
    eapply train_step_raises; eassumption.
  - intros fuel. reflexivity.
  - intros fuel. vm_compute. reflexivity.
Qed.

Lemma custom_train_propagates_failures_witness :
  @custom_train Q _ empty_dev_backend 1 (toy_flags 1 1) toy_paths
    (@QAModel_init Q empty_dev_backend (toy_flags 1 1) (0, 0))
  = Some (Raises ZeroDivisionError).
Proof.
  eapply (proj1 custom_train_propagates_failures Q _ empty_dev_backend
            (toy_flags 1 1) toy_paths
            (@QAModel_init Q empty_dev_backend (toy_flags 1 1) (0, 0))
            0%nat initial_state
            (@QAModel_init Q empty_dev_backend (toy_flags 1 1) (0, 0))
            [] (toy_batch 1 2 0 2) [toy_batch 1 4 1 2]).
  - apply reaches_here.
  - reflexivity.
  - reflexivity.
  - reflexivity.
  - vm_compute. reflexivity.
  - discriminate.
  - right. eexists. split; vm_compute; reflexivity.
  - lia.
Defined.

(** ** Evaluation without dropout *)

Section Determinism.

Context {F : Type} {NumF : Num F} {B : Backend F}.

Lemma agree_value_of {A : Type} (r1 r2 : outcome (A * World)) :
  agree r1 r2 -> value_of r1 = value_of r2.
Proof.
  destruct r1 as [[a1 w1] | e1], r2 as [[a2 w2] | e2]; simpl; intros H;
    try contradiction.
  - destruct H as [-> _]. reflexivity.
  - subst. reflexivity.
Qed.

Lemma deterministic_ret {A : Type} (a : A) : deterministic (ret a).
Proof. intros w1 w2 H. simpl. split; [reflexivity | exact H]. Qed.

Lemma deterministic_lift {A : Type} (r : outcome A) : deterministic (lift r).
Proof.
  intros w1 w2 H. unfold lift. destruct r as [a | e]; simpl.
  - split; [reflexivity | exact H].
  - reflexivity.
Qed.

Lemma deterministic_bind {A C : Type} (c : M A) (k : A -> M C) :
  deterministic c -> (forall a, deterministic (k a)) -> deterministic (bind c k).
Proof.
  intros Hc Hk w1 w2 H. unfold bind. specialize (Hc w1 w2 H).
  destruct (c w1) as [[a1 w1'] | e1], (c w2) as [[a2 w2'] | e2]; simpl in Hc;
    try contradiction.
  - destruct Hc as [-> Hw]. apply Hk. exact Hw.
  - exact Hc.
Qed.

(** The feeds of the two inference passes leave [keep_prob] out; the feed
    of the training pass sets it. *)
Lemma get_loss_feed_keep_prob (b : Batch) :
  @get_loss_feed F b !! keep_prob = None.
Proof.
  unfold get_loss_feed. rewrite !lookup_insert_ne by discriminate.
  apply lookup_empty.
Qed.

Lemma get_class_prob_dist_feed_keep_prob (b : Batch) :
  @get_class_prob_dist_feed F b !! keep_prob = None.
Proof.
  unfold get_class_prob_dist_feed. rewrite !lookup_insert_ne by discriminate.
  apply lookup_empty.
Qed.

Lemma run_train_iter_feed_keep_prob (FLAGS : Flags F) (b : Batch) :
  run_train_iter_feed FLAGS b !! keep_prob
  = Some (Scalar (fsub (lit 1%Q) (dropout FLAGS))).
Proof. unfold run_train_iter_feed. apply lookup_insert_eq. Qed.

Hypothesis no_dropout : inference_without_dropout.

Lemma deterministic_inference {A : Type}
    (op : Session -> feed_dict F -> F -> outcome (A * Session)) (feed : feed_dict F) :
  feed !! keep_prob = None ->
  (forall s1 s2, variables s1 = variables s2 ->
     value_of (op s1 feed (lit 1%Q)) = value_of (op s2 feed (lit 1%Q))) ->
  (forall s x s', op s feed (lit 1%Q) = Returns (x, s') -> variables s' = variables s) ->
  deterministic (session_run op feed).
Proof.
  intros Hfeed Hval Hvars w1 w2 H. unfold session_run, resolve_keep_prob.
  rewrite Hfeed. specialize (Hval (session w1) (session w2) H).
  pose proof (Hvars (session w1)) as Hv1. pose proof (Hvars (session w2)) as Hv2.
  destruct (op (session w1) feed (lit 1%Q)) as [[a1 s1'] | e1],
           (op (session w2) feed (lit 1%Q)) as [[a2 s2'] | e2];
    simpl in Hval; try discriminate Hval; inversion Hval; subst; simpl.
  - split; [reflexivity |]. unfold same_variables. simpl.
    rewrite (Hv1 _ _ eq_refl), (Hv2 _ _ eq_refl). exact H.
  - reflexivity.
Qed.

Lemma deterministic_get_loss (b : Batch) : deterministic (get_loss b).
Proof.
  destruct no_dropout as (Hl & _ & Hlv & _).
  apply deterministic_inference.
  - apply get_loss_feed_keep_prob.
  - intros s1 s2. apply Hl.
  - intros s x s'. apply Hlv.
Qed.

Lemma deterministic_get_class_prob_dist (b : Batch) :
  deterministic (get_class_prob_dist b).
Proof.
  destruct no_dropout as (_ & Hp & _ & Hpv).
  apply deterministic_inference.
  - apply get_class_prob_dist_feed_keep_prob.
  - intros s1 s2. apply Hp.
  - intros s x s'. apply Hpv.
Qed.

Lemma deterministic_get_class (b : Batch) : deterministic (get_class b).
Proof.
  unfold get_class. apply deterministic_bind.
  - apply deterministic_get_class_prob_dist.
  - intros p. apply deterministic_lift.
Qed.

Lemma deterministic_batch_labels (b : Batch) : deterministic (batch_labels b).
Proof.
  unfold batch_labels.
  apply deterministic_bind; [apply deterministic_get_class | intros pc].
  apply deterministic_bind; [apply deterministic_lift | intros p].
  apply deterministic_bind; [apply deterministic_lift | intros ar].
  apply deterministic_bind; [apply deterministic_lift | intros a].
  apply deterministic_ret.
Qed.

Lemma deterministic_dev_loss_loop (batches : list Batch) :
  forall lpb bl, deterministic (dev_loss_loop batches lpb bl).
Proof.
  induction batches as [| b rest IH]; intros lpb bl; simpl.
  - apply deterministic_ret.
  - apply deterministic_bind; [apply deterministic_get_loss | intros loss; apply IH].
Qed.

Lemma deterministic_custom_get_dev_loss (body headline ans : string) :
  deterministic (custom_get_dev_loss body headline ans).
Proof.
  unfold custom_get_dev_loss.
  apply deterministic_bind; [apply deterministic_dev_loss_loop | intros [lpb bl]].
  apply deterministic_lift.
Qed.

Lemma deterministic_check_score_loop (n : Z) (batches : list Batch) :
  forall pl al rem, deterministic (check_score_loop n batches pl al rem).
Proof.
  induction batches as [| b rest IH]; intros pl al rem; simpl.
  - apply deterministic_ret.
  - apply deterministic_bind; [apply deterministic_batch_labels | intros [p a]].
    destruct (n =? 0); [apply IH |].
    destruct (rem >=? Z.of_nat (batch_size b)).
    + destruct (rem - Z.of_nat (batch_size b) =? 0); [apply deterministic_ret | apply IH].
    + simpl. apply deterministic_ret.
Qed.

Lemma deterministic_check_score_cm (body headline ans : string) (n : Z) :
  deterministic (check_score_cm body headline ans n).
Proof.
  unfold check_score_cm, check_score_pairs.
  apply deterministic_bind; [apply deterministic_check_score_loop |].
  intros [[pl al] rest]. apply deterministic_lift.
Qed.

End Determinism.

(** C8: evaluation runs without dropout.  The feeds that [get_loss] and
    [get_class_prob_dist] build have no entry for [keep_prob], so the
    session runs them at the default 1.0, while the feed of
    [run_train_iter] sets it to [1 - dropout].  Hence, on a graph whose only
    randomness is dropout, evaluation is a function of the variables and
    the data: two sessions with the same variables give the same loss, the
    same class distribution and class, the same dev loss and the same
    score.  Training is not: with dropout the loss of a training step
    varies with the noise. *)
Theorem evaluation_without_dropout :
  (forall (F : Type) (NumF : Num F) (B : Backend F) (FLAGS : Flags F) (b : Batch),
      (@get_loss_feed F b !! keep_prob = None
       /\ @get_class_prob_dist_feed F b !! keep_prob = None
       /\ run_train_iter_feed FLAGS b !! keep_prob
          = Some (Scalar (fsub (lit 1%Q) (dropout FLAGS))))
      /\ (resolve_keep_prob (get_loss_feed b) = Returns (lit 1%Q)
          /\ resolve_keep_prob (get_class_prob_dist_feed b) = Returns (lit 1%Q)
          /\ resolve_keep_prob (run_train_iter_feed FLAGS b)
             = Returns (fsub (lit 1%Q) (dropout FLAGS)))
      /\ (inference_without_dropout ->
          forall w1 w2 : World, same_variables w1 w2 ->
            value_of (get_loss b w1) = value_of (get_loss b w2)
            /\ value_of (get_class_prob_dist b w1) = value_of (get_class_prob_dist b w2)
            /\ value_of (get_class b w1) = value_of (get_class b w2)
            /\ (forall body headline ans,
                  value_of (custom_get_dev_loss body headline ans w1)
                  = value_of (custom_get_dev_loss body headline ans w2))
            /\ (forall body headline ans n,
                  value_of (check_score_cm body headline ans n w1)
                  = value_of (check_score_cm body headline ans n w2))))
  /\ (value_of (@run_train_iter Q _ uneven_dev_backend_Q dropout_flags (toy_batch 1 1 0 2)
                  (@QAModel_init Q uneven_dev_backend_Q dropout_flags (0, 0)))
      <> value_of (@run_train_iter Q _ uneven_dev_backend_Q dropout_flags
                     (toy_batch 1 1 0 2)
                     (@QAModel_init Q uneven_dev_backend_Q dropout_flags (0, 7)))).
Proof.
  split.
  - intros F NumF B FLAGS b. split; [| split].
    + split; [apply get_loss_feed_keep_prob |].
      split; [apply get_class_prob_dist_feed_keep_prob |].
      apply run_train_iter_feed_keep_prob.
    + unfold resolve_keep_prob.
      rewrite get_loss_feed_keep_prob, get_class_prob_dist_feed_keep_prob,
        run_train_iter_feed_keep_prob.
      repeat split; reflexivity.
    + intros Hnd w1 w2 Hw. repeat split; intros; apply agree_value_of.
      * apply deterministic_get_loss; assumption.
      * apply deterministic_get_class_prob_dist; assumption.
      * apply deterministic_get_class; assumption.
      * apply deterministic_custom_get_dev_loss; assumption.
      * apply deterministic_check_score_cm; assumption.
  - vm_compute. intros H. discriminate H.
Qed.

Lemma evaluation_without_dropout_witness :
  value_of (@custom_get_dev_loss Q _ uneven_dev_backend_Q "dev" "dev" "dev"
              (@QAModel_init Q uneven_dev_backend_Q dropout_flags (0, 0)))
  = value_of (@custom_get_dev_loss Q _ uneven_dev_backend_Q "dev" "dev" "dev"
                (@QAModel_init Q uneven_dev_backend_Q dropout_flags (0, 7))).
Proof.
  apply (proj2 (proj2 (proj1 evaluation_without_dropout Q _ uneven_dev_backend_Q
                         dropout_flags (toy_batch 1 1 0 2)))).
  - unfold inference_without_dropout. split; [| split; [| split]].
    + intros s1 s2 feed H. reflexivity.
    + intros s1 s2 feed H. reflexivity.
    + intros s feed x s' H. simpl in *. inversion H. reflexivity.
    + intros s feed x s' H. simpl in *. inversion H. reflexivity.
  - reflexivity.
Defined.

(** ** The smoothed loss *)

Section SmoothedLoss.

Context {F : Type} {NumF : Num F}.

Lemma update_exp_loss_first (loss : F) : update_exp_loss None loss = Some loss.
Proof. reflexivity. Qed.

Lemma update_exp_loss_next (e loss : F) :
  fis_zero e = false ->
  update_exp_loss (Some e) loss
  = Some (fadd (fmul (lit (99 # 100)%Q) e) (fmul (lit (1 # 100)%Q) loss)).
Proof. intros H. unfold update_exp_loss. simpl. rewrite H. reflexivity. Qed.

Lemma update_exp_loss_at_zero (e loss : F) :
  fis_zero e = true -> update_exp_loss (Some e) loss = Some loss.
Proof. intros H. unfold update_exp_loss. simpl. rewrite H. reflexivity. Qed.

End SmoothedLoss.

Lemma weighted_history_shift (l : list Q) :
  forall k, (weighted_history (S k) l == (99 # 100) * weighted_history k l)%Q.
Proof.
  induction l as [| x l IH]; intros k; simpl.
  - ring.
  - rewrite (IH (S k)). ring.
Qed.

Lemma smoothed_closed_form_snoc (first : Q) (later : list Q) (x : Q) :
  (smoothed_closed_form first (later ++ [x])
   == (99 # 100) * smoothed_closed_form first later + (1 # 100) * x)%Q.
Proof.
  unfold smoothed_closed_form.
  rewrite length_app, rev_app_distr, Nat.add_1_r. simpl.
  rewrite weighted_history_shift. ring.
Qed.

(** Away from zero the smoothed loss is the weighted sum of the claim: on
    positive losses it follows the recurrence and equals the closed form. *)
Lemma smoothed_loss_positive (first : Q) (later : list Q) :
  (0 < first)%Q -> Forall (fun x => 0 < x)%Q later ->
  exists e : Q,
    smoothed_loss (first :: later) = Some e
    /\ (e == smoothed_closed_form first later)%Q
    /\ (0 < e)%Q.
Proof.
  intros Hfirst. unfold smoothed_loss. simpl.
  induction later as [| x later IH] using rev_ind; intros Hlater.
  - exists first. split; [reflexivity |]. split; [| exact Hfirst].
    unfold smoothed_closed_form. simpl. ring.
  - apply Forall_app in Hlater. destruct Hlater as [Hlater Hx].
    inversion Hx as [| ? ? Hx0 _]; subst.
    destruct (IH Hlater) as (e & He & Heq & Hpos).
    rewrite fold_left_app, He. simpl.
    assert (Hnz : Qeq_bool e 0 = false).
    { destruct (Qeq_bool e 0) eqn:E; [| reflexivity].
      apply Qeq_bool_eq in E. rewrite E in Hpos. apply Qlt_irrefl in Hpos.
      contradiction. }
    rewrite (@update_exp_loss_next Q Num_Q e x Hnz). simpl.
    eexists. split; [reflexivity |]. split.
    + rewrite smoothed_closed_form_snoc, Heq. reflexivity.
    + apply Qlt_le_trans with (y := ((99 # 100) * e + 0)%Q).
      * rewrite Qplus_0_r. apply Qmult_lt_0_compat; [reflexivity | exact Hpos].
      * apply Qplus_le_r.
        apply Qmult_le_0_compat; [discriminate | apply Qlt_le_weak; exact Hx0].
Qed.

(** C1: the smoothed loss is reseeded whenever it is zero.  The update is
    guarded by [not exp_loss], which holds at the first iteration and also
    when the smoothed loss is 0.0.  On the raw losses 0.0 and 1.0 the second
    update therefore yields 1.0, where [0.99 * 0.0 + 0.01 * 1.0] is 0.01; the
    same happens in a run of [custom_train] on two batches with these
    losses. *)
Theorem exp_loss_reseeded_at_zero :
  smoothed_loss [0; 1]%float = Some 1%float
  /\ PrimFloat.eqb
       (fadd (fmul (lit (99 # 100)%Q) 0%float) (fmul (lit (1 # 100)%Q) 1%float))
       1%float = false
  /\ option_map (outcome_map (fun r => exp_loss (fst r)))
       (@custom_train float _ zero_loss_backend 2 plain_flags toy_paths
          (@QAModel_init float zero_loss_backend plain_flags (0, 0)))
     = Some (Returns (Some 1%float))
  /\ (exists e : Q,
        smoothed_loss [0; 1]%Q = Some e
        /\ (e == 1)%Q
        /\ ~ (e == (99 # 100) * 0 + (1 # 100) * 1)%Q).
Proof.
  split; [| split; [| split]].
  - vm_compute. reflexivity.
  - vm_compute. reflexivity.
  - vm_compute. reflexivity.
  - exists 1%Q. split; [reflexivity |]. split; [reflexivity |].
    intros H. vm_compute in H. discriminate H.
Qed.

(** ** What the loop keeps *)

(** One structural step of a preservation proof under local assumptions. *)
Ltac keeps_step :=
  lazymatch goal with
  | |- preserves _ (bind _ _) => apply preserves_bind; [| intros ?]
  | |- preserves _ (if ?b then _ else _) => destruct b
  | |- preserves _ (match ?x with pair _ _ => _ end) => destruct x
  | |- preserves _ _ => solve [auto using preserves_ret, preserves_lift]
  end.

Section Keeping.

Context {F : Type} {NumF : Num F} {B : Backend F}.
Variable I : World -> Prop.

Hypothesis keeps_get_loss : forall b, preserves I (get_loss b).
Hypothesis keeps_get_class_prob_dist : forall b, preserves I (get_class_prob_dist b).

Lemma keeps_get_class (b : Batch) : preserves I (get_class b).
Proof. unfold get_class. repeat keeps_step. Qed.

Lemma keeps_batch_labels (b : Batch) : preserves I (batch_labels b).
Proof.
  unfold batch_labels.
  apply preserves_bind; [apply keeps_get_class | intros pc].
  repeat keeps_step.
Qed.

Lemma keeps_dev_loss_loop (batches : list Batch) :
  forall lpb bl, preserves I (dev_loss_loop batches lpb bl).
Proof.
  induction batches as [| b rest IH]; intros lpb bl; simpl.
  - repeat keeps_step.
  - apply preserves_bind; [apply keeps_get_loss | intros loss; apply IH].
Qed.

Lemma keeps_custom_get_dev_loss (body headline ans : string) :
  preserves I (custom_get_dev_loss body headline ans).
Proof.
  unfold custom_get_dev_loss.
  apply preserves_bind; [apply keeps_dev_loss_loop | intros [lpb bl]].
  repeat keeps_step.
Qed.

Lemma keeps_check_score_loop (n : Z) (batches : list Batch) :
  forall pl al rem, preserves I (check_score_loop n batches pl al rem).
Proof.
  induction batches as [| b rest IH]; intros pl al rem; simpl.
  - repeat keeps_step.
  - apply preserves_bind; [apply keeps_batch_labels | intros [p a]].
    destruct (n =? 0); [apply IH |].
    destruct (rem >=? Z.of_nat (batch_size b)).
    + destruct (rem - Z.of_nat (batch_size b) =? 0); [repeat keeps_step | apply IH].
    + simpl. repeat keeps_step.
Qed.

Lemma keeps_check_score_cm (body headline ans : string) (n : Z) :
  preserves I (check_score_cm body headline ans n).
Proof.
  unfold check_score_cm, check_score_pairs.
  apply preserves_bind; [apply keeps_check_score_loop | intros [[pl al] rest]].
  repeat keeps_step.
Qed.

Variable FLAGS : Flags F.
Variable paths : Paths.

Hypothesis keeps_train_op :
  forall b, preserves I (session_run run_train_op (run_train_iter_feed FLAGS b)).
Hypothesis keeps_add_summary : forall s g, preserves I (add_summary s g).
Hypothesis keeps_save_recent :
  forall g, save_every FLAGS <> 0 -> g mod save_every FLAGS = 0 ->
    preserves I (save MostRecent (checkpoint_path FLAGS) g).
Hypothesis keeps_save_best_score :
  forall g, eval_every FLAGS <> 0 -> g mod eval_every FLAGS = 0 ->
    preserves I (save BestByScore (bestmodel_ckpt_path FLAGS) g).
Hypothesis keeps_save_best_loss :
  forall g, eval_every FLAGS <> 0 -> g mod eval_every FLAGS = 0 ->
    preserves I (save BestByLoss (bestmodel_dev_loss_ckpt_path FLAGS) g).










End Keeping.

Section EvaluationFrame.

Context {F : Type} {NumF : Num F} {B : Backend F}.

Lemma same_outside_session_refl (w : World) : same_outside_session w w.
Proof. repeat split. Qed.

Lemma frame_session_run {A : Type} (w0 : World)
    (op : Session -> feed_dict F -> F -> outcome (A * Session)) (feed : feed_dict F) :
  preserves (same_outside_session w0) (session_run op feed).
Proof.
  intros w a w' HI H. unfold session_run in H.
  destruct (resolve_keep_prob feed) as [kp | e]; [| discriminate H].
  destruct (op (session w) feed kp) as [[x s'] | e]; [| discriminate H].
  inversion H; subst. exact HI.
Qed.

Lemma variables_kept_by_inference {A : Type} (v : Variables)
    (op : Session -> feed_dict F -> F -> outcome (A * Session)) (feed : feed_dict F) :
  feed !! keep_prob = None ->
  (forall s x s', op s feed (lit 1%Q) = Returns (x, s') -> variables s' = variables s) ->
  preserves (fun w => variables (session w) = v) (session_run op feed).
Proof.
  intros Hfeed Hvars w a w' HI H. unfold session_run, resolve_keep_prob in H.
  rewrite Hfeed in H.
  destruct (op (session w) feed (lit 1%Q)) as [[x s'] | e] eqn:Hop; [| discriminate H].
  inversion H; subst. simpl. rewrite (Hvars _ _ _ Hop). reflexivity.
Qed.

End EvaluationFrame.

(** X5: evaluation touches nothing but the session.  Whenever [get_loss],
    [get_class], [custom_get_dev_loss] or [check_score_cm] returns, the three
    savers, the summary writer and the checkpoints on disk are as they were;
    and on a graph whose inference fetches leave the variables alone, the
    dataset loss and the score leave the variables of the session unchanged
    as well. *)
Theorem evaluation_touches_only_the_session :
  forall (F : Type) (NumF : Num F) (B : Backend F) (w : World),
    (forall b x w', get_loss b w = Returns (x, w') -> same_outside_session w w')
    /\ (forall b x w', get_class b w = Returns (x, w') -> same_outside_session w w')
    /\ (forall body headline ans x w',
          custom_get_dev_loss body headline ans w = Returns (x, w') ->
          same_outside_session w w')
    /\ (forall body headline ans n x w',
          check_score_cm body headline ans n w = Returns (x, w') ->
          same_outside_session w w')
    /\ ((forall s feed x s',
           run_loss_op s feed (lit 1%Q) = Returns (x, s') -> variables s' = variables s) ->
        (forall s feed x s',
           run_probdist_op s feed (lit 1%Q) = Returns (x, s') ->
           variables s' = variables s) ->
        (forall body headline ans x w',
           custom_get_dev_loss body headline ans w = Returns (x, w') ->
           variables (session w') = variables (session w))
        /\ (forall body headline ans n x w',
              check_score_cm body headline ans n w = Returns (x, w') ->
              variables (session w') = variables (session w))).
Proof.
  intros F NumF B w.
  assert (Hloss : forall b, preserves (same_outside_session w) (get_loss b)).
  { intros b. apply frame_session_run. }
  assert (Hprob : forall b, preserves (same_outside_session w) (get_class_prob_dist b)).
  { intros b. apply frame_session_run. }
  pose proof (same_outside_session_refl w) as Hw.
  split; [| split; [| split; [| split]]].
  - intros b x w' H. exact (Hloss b w x w' Hw H).
  - intros b x w' H. exact (keeps_get_class _ Hprob b w x w' Hw H).
  - intros body headline ans x w' H.
    exact (keeps_custom_get_dev_loss _ Hloss body headline ans w x w' Hw H).
  - intros body headline ans n x w' H.
    exact (keeps_check_score_cm _ Hprob body headline ans n w x w' Hw H).
  - intros Hl Hp.
    assert (Hloss' : forall b,
               preserves (fun w' => variables (session w') = variables (session w))
                 (get_loss b)).
    { intros b. apply variables_kept_by_inference.
      - apply get_loss_feed_keep_prob.
      - intros s x s'. apply Hl. }
    assert (Hprob' : forall b,
               preserves (fun w' => variables (session w') = variables (session w))
                 (get_class_prob_dist b)).
    { intros b. apply variables_kept_by_inference.
      - apply get_class_prob_dist_feed_keep_prob.
      - intros s x s'. apply Hp. }
    split.
    + intros body headline ans x w' H.
      exact (keeps_custom_get_dev_loss _ Hloss' body headline ans w x w' eq_refl H).
    + intros body headline ans n x w' H.
      exact (keeps_check_score_cm _ Hprob' body headline ans n w x w' eq_refl H).
Qed.

Lemma evaluation_touches_only_the_session_witness :
  same_outside_session
    (@QAModel_init Q three_batches_backend (toy_flags 1 1) (0, 0))
    (set_session (@QAModel_init Q three_batches_backend (toy_flags 1 1) (0, 0)) (0, 3))
  /\ variables (session
       (set_session (@QAModel_init Q uneven_dev_backend_Q (toy_flags 1 1) (4, 0)) (4, 2)))
     = variables (session (@QAModel_init Q uneven_dev_backend_Q (toy_flags 1 1) (4, 0))).
Proof.
  split.
  - apply (proj1 (proj2 (proj2 (proj2
             (evaluation_touches_only_the_session Q _ three_batches_backend
                (@QAModel_init Q three_batches_backend (toy_flags 1 1) (0, 0))))))
             "dev"%string "dev"%string "dev"%string 0 (inject_Z 12)).
    reflexivity.
  - assert (Hl : forall s feed x s',
               @run_loss_op Q uneven_dev_backend_Q s feed (lit 1%Q) = Returns (x, s') ->
               variables s' = variables s).
    { intros s feed x s' H. simpl in *. inversion H. reflexivity. }
    assert (Hp : forall s feed x s',
               @run_probdist_op Q uneven_dev_backend_Q s feed (lit 1%Q) = Returns (x, s') ->
               variables s' = variables s).
    { intros s feed x s' H. simpl in *. inversion H. reflexivity. }
    apply (proj1 (proj2 (proj2 (proj2 (proj2
             (evaluation_touches_only_the_session Q _ uneven_dev_backend_Q
                (@QAModel_init Q uneven_dev_backend_Q (toy_flags 1 1) (4, 0))))))
             Hl Hp) "dev"%string "dev"%string "dev"%string
             (dataset_loss_spec [2; 10]%Q [3; 1])).
    reflexivity.
Defined.

Section CheckpointWrites.

Context {F : Type} {NumF : Num F} {B : Backend F}.
Variable FLAGS : Flags F.





End CheckpointWrites.



(** ** The effects of a training step *)

Section StepEffects.

Context {F : Type} {NumF : Num F} {B : Backend F}.
Variable FLAGS : Flags F.
Variable paths : Paths.

Lemma save_inv (sl : slot) (path : string) (g : Z) w u w' :
  save sl path g w = Returns (u, w') ->
  write_checkpoint path g (session w) = None
  /\ w' = log_checkpoint
            (set_saver sl w (Saver_save (get_saver sl w) g (variables (session w))))
            sl path g.
Proof.
  unfold save. destruct (write_checkpoint path g (session w)); intros H; inversion H.
  split; reflexivity.
Qed.

(** What the two early-stopping tests return, when they return. *)
Lemma early_stopping_inv (st : TrainState) (ds dl : F) (g : Z) w st' w' :
  early_stopping FLAGS st ds dl g w = Returns (st', w') ->
  best_subm_score st' = (if score_improves st ds then Some ds else best_subm_score st)
  /\ lowest_dev_loss st' = (if loss_improves st dl then Some dl else lowest_dev_loss st)
  /\ exp_loss st' = exp_loss st
  /\ summary_writer w' = summary_writer w
  /\ session w' = session w.
Proof.
  unfold early_stopping. intros H.
  apply bind_inv in H. destruct H as (st1 & w1 & H1 & H).
  assert (E1 : best_subm_score st1
               = (if score_improves st ds then Some ds else best_subm_score st)
               /\ lowest_dev_loss st1 = lowest_dev_loss st
               /\ exp_loss st1 = exp_loss st
               /\ summary_writer w1 = summary_writer w
               /\ session w1 = session w).
  { destruct (score_improves st ds).
    - apply bind_inv in H1. destruct H1 as (u & w2 & Hs & H1).
      apply save_inv in Hs. destruct Hs as [_ ->].
      inversion H1; subst. repeat split.
    - inversion H1; subst. repeat split. }
  destruct E1 as (Eb & El & Ee & Es & Ev).
  assert (Eimp : loss_improves st1 dl = loss_improves st dl).
  { unfold loss_improves. rewrite El. reflexivity. }
  rewrite Eimp in H.
  destruct (loss_improves st dl).
  - apply bind_inv in H. destruct H as (u & w2 & Hs & H).
    apply save_inv in Hs. destruct Hs as [_ ->].
    inversion H; subst. simpl. repeat split; assumption.
  - inversion H; subst. repeat split; assumption.
Qed.

Lemma add_summary_inv (s : Summary F) (g : Z) w u w' :
  add_summary s g w = Returns (u, w') ->
  summary_writer w' = summary_writer w ++ [(s, g)]
  /\ session w' = session w
  /\ saver w' = saver w
  /\ bestmodel_saver w' = bestmodel_saver w
  /\ bestmodel_dev_loss_saver w' = bestmodel_dev_loss_saver w
  /\ checkpoints_written w' = checkpoints_written w.
Proof. intros H. inversion H; subst. repeat split. Qed.

(** A training pass changes the session and adds one summary. *)
Lemma run_train_iter_inv (b : Batch) w loss g pn gn w' :
  run_train_iter FLAGS b w = Returns ((loss, g, pn, gn), w') ->
  exists summaries,
    summary_writer w' = summary_writer w ++ [(summaries, g)]
    /\ saver w' = saver w
    /\ bestmodel_saver w' = bestmodel_saver w
    /\ bestmodel_dev_loss_saver w' = bestmodel_dev_loss_saver w
    /\ checkpoints_written w' = checkpoints_written w.
Proof.
  unfold run_train_iter. intros H.
  apply bind_inv in H. destruct H as (out & w1 & Hrun & H).
  apply bind_inv in H. destruct H as (u & w2 & Hsum & H).
  inversion H; subst. clear H.
  pose proof (frame_session_run w _ _ w out w1 (same_outside_session_refl w) Hrun)
    as (Hs1 & Hs2 & Hs3 & Hs4 & Hs5).
  apply add_summary_inv in Hsum. destruct Hsum as (Ha & _ & Hb & Hc & Hd & He).
  exists (fetch_summaries out).
  rewrite Ha, Hb, Hc, Hd, He, Hs1, Hs2, Hs3, Hs4, Hs5. repeat split.
Qed.

End StepEffects.



(** X8: a training step at which no evaluation is due.  The training pass
    itself adds one summary at the fetched step and leaves savers and disk
    alone.  If no save is due either, the step returns the world the pass
    left and changes only the smoothed loss among the local variables; if a
    save is due and the disk takes it, the step does the same and hands the
    current variables to the most-recent saver, recording the write. *)
Theorem train_step_without_evaluation :
  forall (F : Type) (NumF : Num F) (B : Backend F) (FLAGS : Flags F) (paths : Paths)
         (st : TrainState) (b : Batch) (w : World)
         (loss : F) (g : Z) (pn gn : F) (w1 : World),
    run_train_iter FLAGS b w = Returns ((loss, g, pn, gn), w1) ->
    print_every FLAGS <> 0 -> save_every FLAGS <> 0 -> eval_every FLAGS <> 0 ->
    g mod eval_every FLAGS <> 0 ->
    (exists summaries,
       summary_writer w1 = summary_writer w ++ [(summaries, g)]
       /\ saver w1 = saver w
       /\ bestmodel_saver w1 = bestmodel_saver w
       /\ bestmodel_dev_loss_saver w1 = bestmodel_dev_loss_saver w
       /\ checkpoints_written w1 = checkpoints_written w)
    /\ (g mod save_every FLAGS <> 0 ->
        train_step FLAGS paths st b w = Returns (record_loss st loss, w1))
    /\ (g mod save_every FLAGS = 0 ->
        write_checkpoint (checkpoint_path FLAGS) g (session w1) = None ->
        train_step FLAGS paths st b w =
        Returns (record_loss st loss,
                 log_checkpoint
                   (set_saver MostRecent w1
                      (Saver_save (saver w1) g (variables (session w1))))
                   MostRecent (checkpoint_path FLAGS) g))
    /\ best_subm_score (record_loss st loss) = best_subm_score st
    /\ lowest_dev_loss (record_loss st loss) = lowest_dev_loss st
    /\ epoch (record_loss st loss) = epoch st.
Proof.
  intros F NumF B FLAGS paths st b w loss g pn gn w1 Hrun Hp Hs He Hg.
  split; [eapply run_train_iter_inv; exact Hrun |].
  assert (Hstep : forall w2,
             scheduled_save FLAGS g w1 = Returns (tt, w2) ->
             train_step FLAGS paths st b w = Returns (record_loss st loss, w2)).
  { intros w2 Hsave. unfold train_step.
    rewrite (bind_Returns _ _ _ _ _ Hrun).
    unfold bind at 1. unfold lift at 1. unfold py_mod at 1.
    destruct (Z.eqb_spec (print_every FLAGS) 0) as [E | _]; [contradiction |].
    rewrite (bind_Returns _ _ _ _ _ Hsave).
    unfold scheduled_eval, bind, lift, py_mod.
    destruct (Z.eqb_spec (eval_every FLAGS) 0) as [E | _]; [contradiction |].
    destruct (Z.eqb_spec (g mod eval_every FLAGS) 0) as [E | _]; [contradiction |].
    reflexivity. }
  split; [| split; [| repeat split]].
  - intros Hno. apply Hstep. unfold scheduled_save, bind, lift, py_mod.
    destruct (Z.eqb_spec (save_every FLAGS) 0) as [E | _]; [contradiction |].
    destruct (Z.eqb_spec (g mod save_every FLAGS) 0) as [E | _]; [contradiction |].
    reflexivity.
  - intros Hdue Hdisk. apply Hstep. unfold scheduled_save, bind, lift, py_mod.
    destruct (Z.eqb_spec (save_every FLAGS) 0) as [E | _]; [contradiction |].
    destruct (Z.eqb_spec (g mod save_every FLAGS) 0) as [_ | E]; [| contradiction].
    unfold save. rewrite Hdisk. reflexivity.
Qed.

Lemma train_step_without_evaluation_witness :
  on_return
    (@run_train_iter Q _ four_steps_backend (toy_flags 1 5) (toy_batch 4 1 0 2)
       (@QAModel_init Q four_steps_backend (toy_flags 1 5) (0, 0)))
    (fun r =>
       @train_step Q _ four_steps_backend (toy_flags 1 5) toy_paths initial_state
         (toy_batch 4 1 0 2) (@QAModel_init Q four_steps_backend (toy_flags 1 5) (0, 0))
       = Returns (record_loss initial_state (fst (fst (fst (fst r)))), snd r)).
Proof.
  assert (Hstep : outcome_map (fun r => snd (fst (fst (fst r))))
                    (@run_train_iter Q _ four_steps_backend (toy_flags 1 5)
                       (toy_batch 4 1 0 2)
                       (@QAModel_init Q four_steps_backend (toy_flags 1 5) (0, 0)))
                  = Returns 1).
  { reflexivity. }
  destruct (@run_train_iter Q _ four_steps_backend (toy_flags 1 5) (toy_batch 4 1 0 2)
              (@QAModel_init Q four_steps_backend (toy_flags 1 5) (0, 0)))
    as [[[[[loss g] pn] gn] w1] | e] eqn:Hrun; [| discriminate Hstep].
  injection Hstep as ->.
  apply (proj1 (proj2 (train_step_without_evaluation Q _ four_steps_backend
                         (toy_flags 1 5) toy_paths initial_state (toy_batch 4 1 0 2)
                         (@QAModel_init Q four_steps_backend (toy_flags 1 5) (0, 0))
                         loss 1 pn gn w1 Hrun
                         ltac:(discriminate) ltac:(discriminate) ltac:(discriminate)
                         ltac:(discriminate)))).
  discriminate.
Defined.

Section ZeroIntervals.

Context {F : Type} {NumF : Num F} {B : Backend F}.
Variable FLAGS : Flags F.
Variable paths : Paths.



End ZeroIntervals.



Section IdleLoop.

Context {F : Type} {NumF : Num F} {B : Backend F}.
Variable FLAGS : Flags F.
Variable paths : Paths.

Hypothesis no_training_data :
  custom_get_batch_generator (train_body_path paths) (train_headline_path paths)
    (train_ans_path paths) true = [].

Lemma run_epoch_idle (st : TrainState) (w : World) :
  run_epoch FLAGS paths st w = Returns (begin_epoch st, w).
Proof. unfold run_epoch. rewrite no_training_data. reflexivity. Qed.

Lemma epoch_loop_idle (fuel : nat) :
  forall st w,
    0 < num_epochs FLAGS ->
    epoch st <= num_epochs FLAGS ->
    (Z.to_nat (num_epochs FLAGS - epoch st) < fuel)%nat ->
    epoch_loop fuel FLAGS paths st w =
    Some (Returns ({| exp_loss := exp_loss st; best_subm_score := best_subm_score st;
                      lowest_dev_loss := lowest_dev_loss st;
                      epoch := num_epochs FLAGS |}, w)).
Proof.
  induction fuel as [| fuel IH]; intros st w Hpos Hle Hfuel; [lia |].
  simpl. unfold loop_condition.
  destruct (Z.eqb_spec (num_epochs FLAGS) 0) as [E | _]; [lia |]. simpl.
  destruct (Z.ltb_spec (epoch st) (num_epochs FLAGS)) as [Hlt | Hge].
  - rewrite run_epoch_idle. rewrite IH; simpl; try lia. reflexivity.
  - assert (E : epoch st = num_epochs FLAGS) by lia. rewrite <- E.
    destruct st; reflexivity.
Qed.

End IdleLoop.

(** X11: runs without work.  With a negative epoch budget the loop body never
    runs: [custom_train] returns at once and leaves the world as it was.
    With no training batch and a positive budget it counts the budget and
    returns with nothing trained, saved, evaluated or logged; with no
    training batch and a zero budget it spins for ever. *)
Theorem custom_train_without_work :
  forall (F : Type) (NumF : Num F) (B : Backend F) (FLAGS : Flags F) (paths : Paths)
         (w : World),
    (num_epochs FLAGS < 0 ->
     forall fuel, custom_train (S fuel) FLAGS paths w = Some (Returns (initial_state, w)))
    /\ (custom_get_batch_generator (train_body_path paths) (train_headline_path paths)
          (train_ans_path paths) true = [] ->
        (0 < num_epochs FLAGS ->
         forall fuel, (Z.to_nat (num_epochs FLAGS) < fuel)%nat ->
           custom_train fuel FLAGS paths w =
           Some (Returns ({| exp_loss := None; best_subm_score := None;
                             lowest_dev_loss := None; epoch := num_epochs FLAGS |}, w)))
        /\ (num_epochs FLAGS = 0 ->
            forall fuel, custom_train fuel FLAGS paths w = None)).
Proof.
  intros F NumF B FLAGS paths w. unfold custom_train. split.
  - intros Hneg fuel. simpl. unfold loop_condition. simpl epoch.
    destruct (Z.eqb_spec (num_epochs FLAGS) 0) as [E | _]; [lia |].
    destruct (Z.ltb_spec 0 (num_epochs FLAGS)) as [E | _]; [lia |].
    reflexivity.
  - intros Hgen. split.
    + intros Hpos fuel Hfuel.
      rewrite (epoch_loop_idle FLAGS paths Hgen); simpl; try lia. reflexivity.
    + intros Hzero fuel.
      apply epoch_loop_zero_budget_runs_on; [| exact Hzero].
      intros st w0. eexists. eexists. apply run_epoch_idle. exact Hgen.
Qed.

Lemma custom_train_without_work_witness :
  @custom_train Q _ four_steps_backend 1 (toy_flags (-2) 1) toy_paths
    (@QAModel_init Q four_steps_backend (toy_flags (-2) 1) (0, 0))
  = Some (Returns (initial_state,
                   @QAModel_init Q four_steps_backend (toy_flags (-2) 1) (0, 0)))
  /\ @custom_train Q _ no_data_backend 4 (toy_flags 3 1) toy_paths
       (@QAModel_init Q no_data_backend (toy_flags 3 1) (0, 0))
     = Some (Returns ({| exp_loss := None; best_subm_score := None;
                         lowest_dev_loss := None; epoch := 3 |},
                      @QAModel_init Q no_data_backend (toy_flags 3 1) (0, 0)))
  /\ @custom_train Q _ no_data_backend 40 (toy_flags 0 1) toy_paths
       (@QAModel_init Q no_data_backend (toy_flags 0 1) (0, 0))
     = None.
Proof.
  split; [| split].
  - apply (proj1 (custom_train_without_work Q _ four_steps_backend (toy_flags (-2) 1)
                    toy_paths _)).
    simpl. lia.
  - apply (proj1 (proj2 (custom_train_without_work Q _ no_data_backend (toy_flags 3 1)
                           toy_paths _) eq_refl)).
    + simpl. lia.
    + simpl. lia.
  - apply (proj2 (proj2 (custom_train_without_work Q _ no_data_backend (toy_flags 0 1)
                           toy_paths _) eq_refl)).
    reflexivity.
Defined.

(** ** More on the sample limit *)

Section Sampling.

Context {F : Type} {NumF : Num F} {B : Backend F}.

Lemma mapM_firstn {A C : Type} (f : A -> M C) (l : list A) :
  forall k w cs w',
    mapM f l w = Returns (cs, w') ->
    exists wk, mapM f (firstn k l) w = Returns (firstn k cs, wk).
Proof.
  induction l as [| a rest IH]; intros k w cs w' H; simpl in H.
  - inversion H; subst. exists w'. rewrite !firstn_nil. reflexivity.
  - apply bind_inv in H. destruct H as (c & w1 & Ha & H).
    apply bind_inv in H. destruct H as (cs' & w2 & Hrest & H).
    inversion H; subst. clear H.
    destruct k as [| k]; simpl.
    + exists w. reflexivity.
    + destruct (IH k w1 cs' w' Hrest) as (wk & Hk).
      exists wk. unfold bind. rewrite Ha, Hk. reflexivity.
Qed.

Lemma Forall2_firstn {A C : Type} (R : A -> C -> Prop) (l : list A) (l' : list C) :
  Forall2 R l l' -> forall k, Forall2 R (firstn k l) (firstn k l').
Proof.
  induction 1 as [| x y l l' Hxy _ IH]; intros k.
  - rewrite !firstn_nil. constructor.
  - destruct k as [| k]; simpl; constructor; [exact Hxy | apply IH].
Qed.

(** The first [rem] labels of the pulled batches are the first [rem]
    labels of all of them. *)
Lemma firstn_concat_pulled {A : Type} (g : list string * list string -> list A)
    (batches : list Batch) :
  forall (labels : list (list string * list string)) rem,
    0 < rem ->
    Forall2 (fun b l => List.length (g l) = batch_size b) batches labels ->
    firstn (Z.to_nat rem)
      (concat (map g (firstn (batches_needed rem batches) labels)))
    = firstn (Z.to_nat rem) (concat (map g labels)).
Proof.
  induction batches as [| b rest IH]; intros labels rem Hrem Hlen.
  - inversion Hlen; subst. reflexivity.
  - inversion Hlen as [| ? l ? ls Hl Hrest]; subst. simpl.
    destruct (Z.leb_spec rem (Z.of_nat (batch_size b))) as [Hle | Hgt]; simpl.
    + rewrite app_nil_r, firstn_app.
      replace (Z.to_nat rem - List.length (g l))%nat with 0%nat by lia.
      simpl. rewrite app_nil_r. reflexivity.
    + rewrite !firstn_app. f_equal.
      replace (Z.to_nat rem - List.length (g l))%nat
        with (Z.to_nat (rem - Z.of_nat (batch_size b))) by lia.
      apply IH; [lia | exact Hrest].
Qed.

End Sampling.

(** X3: a sample is a prefix of the whole.  If the run over the whole
    dataset succeeds, with one prediction per example, and collects the
    label lists [P] and [A], then for every limit [n > 0] the limited run
    succeeds as well and collects exactly the first [n] entries of [P] and
    of [A]. *)
Theorem check_score_sample_is_a_prefix :
  forall (F : Type) (NumF : Num F) (B : Backend F)
         (body headline ans : string) (w : World) (n : Z)
         (labels : list (list string * list string)) (w' : World),
    0 < n ->
    mapM batch_labels (custom_get_batch_generator body headline ans false) w
      = Returns (labels, w') ->
    Forall2 (fun b l => List.length (fst l) = batch_size b)
      (custom_get_batch_generator body headline ans false) labels ->
    value_of (check_score_pairs body headline ans 0 w)
    = Returns (concat (map fst labels), concat (map snd labels), [])
    /\ exists rest,
         value_of (check_score_pairs body headline ans n w)
         = Returns (firstn (Z.to_nat n) (concat (map fst labels)),
                    firstn (Z.to_nat n) (concat (map snd labels)), rest).
Proof.
  intros F NumF B body headline ans w n labels w' Hn Hrun Hlen.
  split.
  - unfold check_score_pairs. rewrite check_score_loop_all, Hrun. reflexivity.
  - set (batches := custom_get_batch_generator body headline ans false) in *.
    destruct (mapM_firstn batch_labels batches (batches_needed n batches) w labels w' Hrun)
      as (wk & Hk).
    exists (skipn (batches_needed n batches) batches).
    unfold check_score_pairs. fold batches.
    rewrite (check_score_loop_limited n batches) with
      (labels := firstn (batches_needed n batches) labels) (w' := wk);
      [| lia | exact Hn | exact Hk | apply Forall2_firstn; exact Hlen].
    simpl. rewrite (firstn_concat_pulled fst batches labels n Hn Hlen).
    pose proof (mapM_batch_labels_actual _ _ _ _ Hrun) as Hact.
    rewrite (firstn_concat_pulled snd batches labels n Hn Hact).
    reflexivity.
Qed.

Lemma check_score_sample_is_a_prefix_witness :
  exists rest,
    value_of (@check_score_pairs Q _ three_batches_backend "dev" "dev" "dev" 6
                (@QAModel_init Q three_batches_backend (toy_flags 1 1) (0, 0)))
    = Returns (firstn (Z.to_nat 6)
                 (concat (map fst
                    [(repeat "agree"%string 4, repeat "agree"%string 4);
                     (repeat "disagree"%string 4, repeat "disagree"%string 4);
                     (repeat "discuss"%string 4, repeat "discuss"%string 4)])),
               firstn (Z.to_nat 6)
                 (concat (map snd
                    [(repeat "agree"%string 4, repeat "agree"%string 4);
                     (repeat "disagree"%string 4, repeat "disagree"%string 4);
                     (repeat "discuss"%string 4, repeat "discuss"%string 4)])),
               rest).
Proof.
  assert (Hrun : @mapM Q three_batches_backend _ _ batch_labels
                   (@custom_get_batch_generator Q three_batches_backend
                      "dev" "dev" "dev" false)
                   (@QAModel_init Q three_batches_backend (toy_flags 1 1) (0, 0))
                 = Returns
                     ([(repeat "agree"%string 4, repeat "agree"%string 4);
                       (repeat "disagree"%string 4, repeat "disagree"%string 4);
                       (repeat "discuss"%string 4, repeat "discuss"%string 4)],
                      set_session
                        (@QAModel_init Q three_batches_backend (toy_flags 1 1) (0, 0))
                        (0, 3))).
  { reflexivity. }
  exact (proj2 (check_score_sample_is_a_prefix Q _ three_batches_backend
                  "dev" "dev" "dev" _ 6 _ _ ltac:(lia) Hrun
                  ltac:(repeat constructor))).
Defined.

Section Alignment.

Context {F : Type} {NumF : Num F} {B : Backend F}.

Lemma py_slice_to_aligned {A C : Type} (p : list A) (a : list C) (k : Z) :
  List.length p = List.length a ->
  List.length (py_slice_to p k) = List.length (py_slice_to a k).
Proof.
  intros H. unfold py_slice_to. rewrite H.
  destruct (k <? 0); rewrite !length_firstn, H; reflexivity.
Qed.

Lemma check_score_loop_aligned (n : Z) (batches : list Batch) :
  (forall b, In b batches ->
     forall w p a w', batch_labels b w = Returns ((p, a), w') ->
                      List.length p = batch_size b) ->
  forall pl al rem w pl' al' rest w',
    List.length pl = List.length al ->
    check_score_loop n batches pl al rem w = Returns ((pl', al', rest), w') ->
    List.length pl' = List.length al'.
Proof.
  induction batches as [| b more IH]; intros Hshape pl al rem w pl' al' rest w' Heq H;
    simpl in H.
  - inversion H; subst. exact Heq.
  - apply bind_inv in H. destruct H as ([p a] & w1 & Hb & H).
    assert (Hpa : List.length p = List.length a).
    { rewrite (Hshape b (or_introl eq_refl) _ _ _ _ Hb).
      symmetry. eapply batch_labels_actual_length. exact Hb. }
    assert (Hmore : forall b', In b' more ->
               forall w p a w', batch_labels b' w = Returns ((p, a), w') ->
                                List.length p = batch_size b').
    { intros b' Hin. apply Hshape. right. exact Hin. }
    assert (Hwhole : List.length (pl ++ p) = List.length (al ++ a)).
    { rewrite !length_app. congruence. }
    assert (Hcut : List.length (pl ++ py_slice_to p rem)
                   = List.length (al ++ py_slice_to a rem)).
    { rewrite !length_app, (py_slice_to_aligned p a rem Hpa). congruence. }
    destruct (n =? 0).
    + eapply (IH Hmore); [exact Hwhole | exact H].
    + destruct (rem >=? Z.of_nat (batch_size b)).
      * destruct (rem - Z.of_nat (batch_size b) =? 0).
        -- inversion H; subst. exact Hwhole.
        -- eapply (IH Hmore); [exact Hwhole | exact H].
      * simpl in H. inversion H; subst. exact Hcut.
Qed.

End Alignment.

(** X4: the scorer gets aligned lists, whatever the limit.  With one
    prediction per example, the predicted and the actual label lists that
    [check_score_cm] collects have the same length for every value of
    [num_samples].  A negative [num_samples] is not rejected: the loop reads
    the first batch only and keeps all but its last [-num_samples] pairs. *)
Theorem check_score_lists_aligned :
  forall (F : Type) (NumF : Num F) (B : Backend F)
         (body headline ans : string) (n : Z) (w : World)
         (pred_list actual_list : list string) (rest : list Batch) (w' : World),
    (forall b, In b (custom_get_batch_generator body headline ans false) ->
       forall w0 p a w1, batch_labels b w0 = Returns ((p, a), w1) ->
                         List.length p = batch_size b) ->
    check_score_pairs body headline ans n w
      = Returns ((pred_list, actual_list, rest), w') ->
    List.length pred_list = List.length actual_list
    /\ (n < 0 ->
        forall b more,
          custom_get_batch_generator body headline ans false = b :: more ->
          rest = more
          /\ Z.of_nat (List.length pred_list) = Z.max 0 (Z.of_nat (batch_size b) + n)).
Proof.
  intros F NumF B body headline ans n w pl al rest w' Hshape Hrun. split.
  - unfold check_score_pairs in Hrun.
    eapply check_score_loop_aligned; [exact Hshape | | exact Hrun]. reflexivity.
  - intros Hneg b more Hgen. unfold check_score_pairs in Hrun.
    rewrite Hgen in Hrun, Hshape. simpl in Hrun.
    apply bind_inv in Hrun. destruct Hrun as ([p a] & w1 & Hb & Hrun).
    pose proof (Hshape b (or_introl eq_refl) _ _ _ _ Hb) as Hp.
    destruct (Z.eqb_spec n 0) as [E | _]; [lia |].
    destruct (Z.geb_spec n (Z.of_nat (batch_size b))) as [Hge | _]; [lia |].
    simpl in Hrun. inversion Hrun; subst. split; [reflexivity |].
    unfold py_slice_to. destruct (Z.ltb_spec n 0) as [_ | Hge]; [| lia].
    cbn [app]. rewrite length_firstn, Hp. lia.
Qed.

Lemma check_score_lists_aligned_witness :
  List.length ["agree"; "agree"; "agree"]%string
  = List.length ["agree"; "agree"; "agree"]%string
  /\ ([toy_batch 1 1 1 4; toy_batch 1 1 2 4] = [toy_batch 1 1 1 4; toy_batch 1 1 2 4]
      /\ Z.of_nat (List.length ["agree"; "agree"; "agree"]%string)
         = Z.max 0 (Z.of_nat 4 + -1)).
Proof.
  assert (Hshape : forall b,
             In b (@custom_get_batch_generator Q three_batches_backend
                     "dev" "dev" "dev" false) ->
             forall w0 p a w1,
               @batch_labels Q _ three_batches_backend b w0 = Returns ((p, a), w1) ->
               List.length p = batch_size b).
  { intros b Hin w0 p a w1 H.
    apply (f_equal (outcome_map (fun x : list string * list string * World =>
                                   List.length (fst (fst x))))) in H.
    simpl outcome_map at 2 in H.
    destruct Hin as [<- | [<- | [<- | []]]];
      vm_compute in H; injection H as Hp; exact (eq_sym Hp). }
  pose proof (check_score_lists_aligned Q _ three_batches_backend
                "dev" "dev" "dev" (-1)
                (@QAModel_init Q three_batches_backend (toy_flags 1 1) (0, 0))
                ["agree"; "agree"; "agree"]%string ["agree"; "agree"; "agree"]%string
                [toy_batch 1 1 1 4; toy_batch 1 1 2 4]
                (set_session
                   (@QAModel_init Q three_batches_backend (toy_flags 1 1) (0, 0)) (0, 1))
                Hshape ltac:(reflexivity)) as [Heq Hneg].
  split; [exact Heq |].
  apply (Hneg ltac:(lia) (toy_batch 1 1 0 4) [toy_batch 1 1 1 4; toy_batch 1 1 2 4]).
  reflexivity.
Defined.

(** ** The predicted class *)

Section Argmax.

Context {F : Type} {NumF : Num F}.

Lemma argmax_from_bound (row : list F) :
  forall best besti i,
    (besti < i)%nat ->
    (argmax_from best besti i row < i + List.length row)%nat.
Proof.
  induction row as [| x rest IH]; intros best besti i Hlt; simpl.
  - lia.
  - destruct (flt best x).
    + specialize (IH x i (S i)). lia.
    + specialize (IH best besti (S i)). lia.
Qed.

Lemma argmax_bound (row : list F) (c : Z) :
  argmax row = Returns c -> 0 <= c < Z.of_nat (List.length row).
Proof.
  destruct row as [| x rest]; simpl; intros H; inversion H; subst.
  pose proof (argmax_from_bound rest x 0%nat 1%nat). lia.
Qed.

Lemma traverse_Forall2 {A C : Type} (f : A -> outcome C) (l : list A) :
  forall cs, traverse f l = Returns cs -> Forall2 (fun a c => f a = Returns c) l cs.
Proof.
  induction l as [| a rest IH]; intros cs H; simpl in H.
  - inversion H. constructor.
  - destruct (f a) as [c | e] eqn:Ea; [| discriminate H].
    destruct (traverse f rest) as [cs' | e]; [| discriminate H].
    inversion H; subst. constructor; [exact Ea | apply IH; reflexivity].
Qed.

Lemma traverse_argmax_empty_row (rows : list (list F)) :
  In [] rows -> traverse argmax rows = Raises ValueError.
Proof.
  induction rows as [| row rest IH]; intros Hin; [destruct Hin |].
  destruct row as [| x row'].
  - reflexivity.
  - destruct Hin as [Hin | Hin]; [discriminate Hin |].
    cbn [traverse argmax]. rewrite (IH Hin). reflexivity.
Qed.

End Argmax.

(** The entry at the index [argmax_from] returns is a largest one, and the
    first such, over the rationals. *)
Lemma argmax_from_largest (row : list Q) :
  forall (pre : list Q) (best : Q) (besti : nat),
    nth_error pre besti = Some best ->
    Forall (fun x => x <= best)%Q pre ->
    (forall k y, (k < besti)%nat -> nth_error pre k = Some y -> (y < best)%Q) ->
    exists v,
      nth_error (pre ++ row) (argmax_from best besti (List.length pre) row) = Some v
      /\ Forall (fun x => x <= v)%Q (pre ++ row)
      /\ (forall k y, (k < argmax_from best besti (List.length pre) row)%nat ->
            nth_error (pre ++ row) k = Some y -> (y < v)%Q).
Proof.
  induction row as [| x rest IH]; intros pre best besti Hbest Hall Hfirst; simpl.
  - exists best. rewrite app_nil_r. repeat split; assumption.
  - assert (Hlen : List.length (pre ++ [x]) = S (List.length pre)).
    { rewrite length_app. simpl. lia. }
    assert (Hbi : (besti < List.length pre)%nat).
    { apply nth_error_Some. rewrite Hbest. discriminate. }
    replace (pre ++ x :: rest) with ((pre ++ [x]) ++ rest)
      by (rewrite <- app_assoc; reflexivity).
    rewrite <- Hlen.
    destruct (Qle_bool x best) eqn:Ex; simpl.
    + apply Qle_bool_iff in Ex. apply IH.
      * rewrite nth_error_app1 by exact Hbi. exact Hbest.
      * apply Forall_app. split; [exact Hall | constructor; [exact Ex | constructor]].
      * intros k y Hk Hy. apply (Hfirst k y Hk).
        rewrite nth_error_app1 in Hy by lia. exact Hy.
    + assert (Hlt : (best < x)%Q).
      { apply Qnot_le_lt. intros Hle. apply Qle_bool_iff in Hle. congruence. }
      apply IH.
      * rewrite nth_error_app2 by lia. rewrite Nat.sub_diag. reflexivity.
      * apply Forall_app. split.
        -- eapply List.Forall_impl; [| exact Hall].
           intros y Hy. simpl in Hy. apply Qlt_le_weak.
           eapply Qle_lt_trans; [exact Hy | exact Hlt].
        -- constructor; [apply Qle_refl | constructor].
      * intros k y Hk Hy. rewrite nth_error_app1 in Hy by exact Hk.
        eapply Qle_lt_trans; [| exact Hlt].
        pose proof (proj1 (List.Forall_forall _ _) Hall y (nth_error_In _ _ Hy)) as Hy'.
        exact Hy'.
Qed.

Lemma get_class_inv {F : Type} {NumF : Num F} {B : Backend F}
    (b : Batch) (w : World) (classes : list Z) (w' : World) :
  get_class b w = Returns (classes, w') ->
  exists probdist,
    get_class_prob_dist b w = Returns (probdist, w')
    /\ traverse argmax probdist = Returns classes.
Proof.
  unfold get_class. intros H.
  apply bind_inv in H. destruct H as (probdist & w1 & Hp & H).
  apply lift_inv in H. destruct H as [Ht ->].
  exists probdist. split; assumption.
Qed.

(** X12: the predicted class is the first largest entry.  When [get_class]
    returns, it returns one class index for each row of the class
    distribution, each a valid column of its row; over the rationals the
    entry at that column is a largest entry of the row and every entry
    before it is strictly smaller.  A distribution with an empty row makes
    [get_class] raise [ValueError]. *)
Theorem get_class_picks_first_largest :
  (forall (F : Type) (NumF : Num F) (B : Backend F)
          (b : Batch) (w : World) (classes : list Z) (w' : World),
      get_class b w = Returns (classes, w') ->
      exists probdist,
        get_class_prob_dist b w = Returns (probdist, w')
        /\ Forall2 (fun (row : list F) (c : Z) => 0 <= c < Z.of_nat (List.length row))
             probdist classes)
  /\ (forall (F : Type) (NumF : Num F) (B : Backend F)
             (b : Batch) (w : World) (probdist : list (list F)) (w' : World),
        get_class_prob_dist b w = Returns (probdist, w') ->
        In [] probdist ->
        get_class b w = Raises ValueError)
  /\ (forall (B : Backend Q) (b : Batch) (w : World) (classes : list Z) (w' : World),
        get_class b w = Returns (classes, w') ->
        exists probdist,
          get_class_prob_dist b w = Returns (probdist, w')
          /\ Forall2
               (fun (row : list Q) (c : Z) =>
                  exists v,
                    nth_error row (Z.to_nat c) = Some v
                    /\ Forall (fun x => x <= v)%Q row
                    /\ forall k y, (k < Z.to_nat c)%nat ->
                                   nth_error row k = Some y -> (y < v)%Q)
               probdist classes).
Proof.
  split; [| split].
  - intros F NumF B b w classes w' H.
    apply get_class_inv in H. destruct H as (probdist & Hp & Ht).
    exists probdist. split; [exact Hp |].
    apply traverse_Forall2 in Ht.
    eapply List.Forall2_impl; [| exact Ht].
    intros row c Hc. simpl in Hc. apply argmax_bound. exact Hc.
  - intros F NumF B b w probdist w' Hp Hin. unfold get_class.
    rewrite (bind_Returns _ _ _ _ _ Hp). unfold lift.
    rewrite (traverse_argmax_empty_row probdist Hin). reflexivity.
  - intros B b w classes w' H.
    apply get_class_inv in H. destruct H as (probdist & Hp & Ht).
    exists probdist. split; [exact Hp |].
    apply traverse_Forall2 in Ht.
    eapply List.Forall2_impl; [| exact Ht].
    intros row c Hc. simpl in Hc.
    destruct row as [| x rest]; [discriminate Hc |].
    cbn [argmax] in Hc. injection Hc as <-. rewrite Nat2Z.id.
    apply (argmax_from_largest rest [x] x 0%nat).
    + reflexivity.
    + constructor; [apply Qle_refl | constructor].
    + intros k y Hk. lia.
Qed.

Lemma get_class_picks_first_largest_witness :
  exists probdist,
    @get_class_prob_dist Q _ three_batches_backend (toy_batch 1 1 2 4)
      (@QAModel_init Q three_batches_backend (toy_flags 1 1) (0, 0))
    = Returns (probdist,
               set_session (@QAModel_init Q three_batches_backend (toy_flags 1 1) (0, 0))
                 (0, 1))
    /\ Forall2 (fun (row : list Q) (c : Z) => 0 <= c < Z.of_nat (List.length row))
         probdist [2; 2; 2; 2].
Proof.
  apply (proj1 get_class_picks_first_largest Q _ three_batches_backend
           (toy_batch 1 1 2 4)
           (@QAModel_init Q three_batches_backend (toy_flags 1 1) (0, 0))
           [2; 2; 2; 2]).
  reflexivity.
Defined.

(** ** The range of the dev loss *)

Lemma weighted_sum_upper (losses : list Q) :
  forall (sizes : list Z) (a : Q) (z : Z) (M : Q),
    List.length losses = List.length sizes ->
    Forall (fun s => 0 <= s) sizes ->
    Forall (fun l => l <= M)%Q losses ->
    (a <= M * inject_Z z)%Q ->
    (fold_left Qplus
       (map (fun ls : Q * Z => fst ls * inject_Z (snd ls)) (combine losses sizes)) a
     <= M * inject_Z (fold_left Z.add sizes z))%Q.
Proof.
  induction losses as [| l losses IH]; intros sizes a z M Hlen Hs Hl Ha;
    destruct sizes as [| s sizes]; try discriminate Hlen.
  - simpl. exact Ha.
  - inversion Hs as [| ? ? Hs0 Hs']; subst. inversion Hl as [| ? ? Hl0 Hl']; subst.
    simpl. apply IH; [simpl in Hlen; lia | exact Hs' | exact Hl' |].
    rewrite inject_Z_plus, Qmult_plus_distr_r.
    apply Qplus_le_compat; [exact Ha |].
    apply Qmult_le_compat_r; [exact Hl0 |].
    change 0%Q with (inject_Z 0). rewrite <- Zle_Qle. exact Hs0.
Qed.

Lemma weighted_sum_lower (losses : list Q) :
  forall (sizes : list Z) (a : Q) (z : Z) (m : Q),
    List.length losses = List.length sizes ->
    Forall (fun s => 0 <= s) sizes ->
    Forall (fun l => m <= l)%Q losses ->
    (m * inject_Z z <= a)%Q ->
    (m * inject_Z (fold_left Z.add sizes z)
     <= fold_left Qplus
          (map (fun ls : Q * Z => fst ls * inject_Z (snd ls)) (combine losses sizes)) a)%Q.
Proof.
  induction losses as [| l losses IH]; intros sizes a z m Hlen Hs Hl Ha;
    destruct sizes as [| s sizes]; try discriminate Hlen.
  - simpl. exact Ha.
  - inversion Hs as [| ? ? Hs0 Hs']; subst. inversion Hl as [| ? ? Hl0 Hl']; subst.
    simpl. apply IH; [simpl in Hlen; lia | exact Hs' | exact Hl' |].
    rewrite inject_Z_plus, Qmult_plus_distr_r.
    apply Qplus_le_compat; [exact Ha |].
    apply Qmult_le_compat_r; [exact Hl0 |].
    change 0%Q with (inject_Z 0). rewrite <- Zle_Qle. exact Hs0.
Qed.

Lemma batch_sizes_nonneg (batches : list Batch) :
  Forall (fun s => 0 <= s) (batch_sizes batches).
Proof.
  unfold batch_sizes. induction batches as [| b rest IH]; simpl; constructor;
    [lia | exact IH].
Qed.

Lemma total_examples_positive (batches : list Batch) :
  batches <> [] ->
  Forall (fun b => (0 < batch_size b)%nat) batches ->
  0 < total_examples batches.
Proof.
  intros Hne Hpos. destruct batches as [| b rest]; [contradiction |].
  inversion Hpos as [| ? ? Hb _]; subst.
  rewrite total_examples_cons. pose proof (total_examples_nonneg rest). lia.
Qed.

(** X10: the dev loss lies within the range of the batch losses.  Over the
    rationals, when the dev set has a batch, no batch is empty and the
    forward passes return losses that all lie between [m] and [M], the value
    [custom_get_dev_loss] returns lies between [m] and [M] too. *)
Theorem custom_get_dev_loss_within_range :
  forall (B : Backend Q) (body headline ans : string) (w : World)
         (losses : list Q) (w' : World) (m M : Q),
    custom_get_batch_generator body headline ans true <> [] ->
    Forall (fun b => (0 < batch_size b)%nat)
      (custom_get_batch_generator body headline ans true) ->
    mapM get_loss (custom_get_batch_generator body headline ans true) w
      = Returns (losses, w') ->
    Forall (fun l => m <= l /\ l <= M)%Q losses ->
    exists x,
      custom_get_dev_loss body headline ans w = Returns (x, w')
      /\ (m <= x)%Q /\ (x <= M)%Q.
Proof.
  intros B body headline ans w losses w' m M Hne Hpos Hrun Hrange.
  set (batches := custom_get_batch_generator body headline ans true) in *.
  exists (dataset_loss_spec losses (batch_sizes batches)).
  split; [apply custom_get_dev_loss_nonempty; assumption |].
  pose proof (mapM_length _ _ _ _ _ Hrun) as Hlen.
  assert (Hlen' : List.length losses = List.length (batch_sizes batches)).
  { unfold batch_sizes. rewrite length_map. exact Hlen. }
  assert (Htotal : (0 < inject_Z (py_sum_int (batch_sizes batches)))%Q).
  { change 0%Q with (inject_Z 0). rewrite <- Zlt_Qlt.
    apply total_examples_positive; assumption. }
  assert (Hup : Forall (fun l => l <= M)%Q losses).
  { eapply List.Forall_impl; [| exact Hrange]. intros l [_ H]. exact H. }
  assert (Hlow : Forall (fun l => m <= l)%Q losses).
  { eapply List.Forall_impl; [| exact Hrange]. intros l [H _]. exact H. }
  unfold dataset_loss_spec, fsum. simpl. split.
  - apply Qle_shift_div_l; [exact Htotal |].
    apply (weighted_sum_lower losses (batch_sizes batches) (inject_Z 0) 0 m Hlen'
             (batch_sizes_nonneg batches) Hlow).
    change (inject_Z 0) with 0%Q. rewrite Qmult_0_r. apply Qle_refl.
  - apply Qle_shift_div_r; [exact Htotal |].
    apply (weighted_sum_upper losses (batch_sizes batches) (inject_Z 0) 0 M Hlen'
             (batch_sizes_nonneg batches) Hup).
    change (inject_Z 0) with 0%Q. rewrite Qmult_0_r. apply Qle_refl.
Qed.

Lemma custom_get_dev_loss_within_range_witness :
  exists x,
    @custom_get_dev_loss Q _ uneven_dev_backend_Q "dev" "dev" "dev"
      (@QAModel_init Q uneven_dev_backend_Q (toy_flags 1 1) (0, 0))
    = Returns (x, set_session
                    (@QAModel_init Q uneven_dev_backend_Q (toy_flags 1 1) (0, 0)) (0, 2))
    /\ (2 <= x)%Q /\ (x <= 10)%Q.
Proof.
  apply (custom_get_dev_loss_within_range uneven_dev_backend_Q "dev" "dev" "dev"
           (@QAModel_init Q uneven_dev_backend_Q (toy_flags 1 1) (0, 0))
           [2; 10]%Q).
  - discriminate.
  - repeat constructor.
  - reflexivity.
  - repeat constructor; discriminate.
Defined.

(** ** The early-stopping records *)

Section Records.

Context {B : Backend Q}.
Variable FLAGS : Flags Q.
Variable paths : Paths.

Lemma records_no_worse_refl (st : TrainState) : records_no_worse st st.
Proof.
  unfold records_no_worse. split.
  - destruct (best_subm_score st) as [b |]; [| exact I].
    exists b. split; [reflexivity | apply Qle_refl].
  - destruct (lowest_dev_loss st) as [l |]; [| exact I].
    exists l. split; [reflexivity | apply Qle_refl].
Qed.

Lemma records_no_worse_trans (st1 st2 st3 : TrainState) :
  records_no_worse st1 st2 -> records_no_worse st2 st3 -> records_no_worse st1 st3.
Proof.
  unfold records_no_worse. intros [Hb12 Hl12] [Hb23 Hl23]. split.
  - destruct (best_subm_score st1) as [b1 |]; [| exact I].
    destruct Hb12 as (b2 & E2 & H12). rewrite E2 in Hb23.
    destruct Hb23 as (b3 & E3 & H23). exists b3. split; [exact E3 |].
    eapply Qle_trans; eassumption.
  - destruct (lowest_dev_loss st1) as [l1 |]; [| exact I].
    destruct Hl12 as (l2 & E2 & H12). rewrite E2 in Hl23.
    destruct Hl23 as (l3 & E3 & H23). exists l3. split; [exact E3 |].
    eapply Qle_trans; eassumption.
Qed.

Lemma records_no_worse_same (st st' : TrainState) :
  best_subm_score st' = best_subm_score st ->
  lowest_dev_loss st' = lowest_dev_loss st ->
  records_no_worse st st'.
Proof.
  intros Hb Hl. unfold records_no_worse. rewrite Hb, Hl. apply records_no_worse_refl.
Qed.

Lemma flt_Q_lt (x y : Q) : flt x y = true -> (x < y)%Q.
Proof.
  simpl. intros H. apply Qnot_le_lt. intros Hle.
  apply Qle_bool_iff in Hle. rewrite Hle in H. discriminate H.
Qed.

Lemma early_stopping_records (st : TrainState) (ds dl : Q) (g : Z) w st' w' :
  early_stopping FLAGS st ds dl g w = Returns (st', w') -> records_no_worse st st'.
Proof.
  intros H. apply early_stopping_inv in H. destruct H as (Hb & Hl & _).
  unfold records_no_worse. rewrite Hb, Hl. split.
  - unfold score_improves. destruct (best_subm_score st) as [b |]; [| exact I].
    destruct (flt b ds) eqn:E.
    + exists ds. split; [reflexivity |]. apply Qlt_le_weak. apply flt_Q_lt. exact E.
    + exists b. split; [reflexivity | apply Qle_refl].
  - unfold loss_improves. destruct (lowest_dev_loss st) as [l |]; [| exact I].
    destruct (flt dl l) eqn:E.
    + exists dl. split; [reflexivity |]. apply Qlt_le_weak. apply flt_Q_lt. exact E.
    + exists l. split; [reflexivity | apply Qle_refl].
Qed.

Lemma train_step_records (st : TrainState) (b : Batch) w st' w' :
  train_step FLAGS paths st b w = Returns (st', w') -> records_no_worse st st'.
Proof.
  unfold train_step. intros H.
  apply bind_inv in H. destruct H as ([[[loss g] pn] gn] & w1 & _ & H).
  apply bind_inv in H. destruct H as (r1 & w2 & _ & H).
  apply bind_inv in H. destruct H as (u & w3 & _ & H).
  unfold scheduled_eval in H.
  apply bind_inv in H. destruct H as (r & w4 & _ & H).
  apply records_no_worse_trans with (st2 := record_loss st loss).
  { apply records_no_worse_same; reflexivity. }
  destruct (r =? 0).
  - unfold evaluate in H. do 6 invert_bind H.
    apply early_stopping_records in H. exact H.
  - inversion H; subst. apply records_no_worse_refl.
Qed.

Lemma batch_loop_records (batches : list Batch) :
  forall st w st' w',
    batch_loop FLAGS paths st batches w = Returns (st', w') -> records_no_worse st st'.
Proof.
  induction batches as [| b rest IH]; intros st w st' w' H; simpl in H.
  - inversion H; subst. apply records_no_worse_refl.
  - apply bind_inv in H. destruct H as (st1 & w1 & H1 & H).
    eapply records_no_worse_trans; [eapply train_step_records; exact H1 |].
    eapply IH. exact H.
Qed.

Lemma run_epoch_records (st : TrainState) w st' w' :
  run_epoch FLAGS paths st w = Returns (st', w') -> records_no_worse st st'.
Proof.
  unfold run_epoch. intros H. apply batch_loop_records in H.
  eapply records_no_worse_trans; [| exact H].
  apply records_no_worse_same; reflexivity.
Qed.

Lemma epoch_loop_records (fuel : nat) :
  forall st w st' w',
    epoch_loop fuel FLAGS paths st w = Some (Returns (st', w')) ->
    records_no_worse st st'.
Proof.
  induction fuel as [| fuel IH]; intros st w st' w' H; simpl in H.
  - discriminate H.
  - destruct (loop_condition FLAGS st).
    + destruct (run_epoch FLAGS paths st w) as [[st1 w1] | e] eqn:Hep; [| discriminate H].
      eapply records_no_worse_trans; [eapply run_epoch_records; exact Hep |].
      eapply IH. exact H.
    + inversion H; subst. apply records_no_worse_refl.
Qed.

End Records.

(** X9: the early-stopping records only improve.  Over the rationals, across
    a training step, across an epoch and across the rest of the loop, a best
    score that has been recorded is never cleared and never lowered, and a
    lowest dev loss that has been recorded is never cleared and never
    raised. *)
Theorem early_stopping_records_only_improve :
  forall (B : Backend Q) (FLAGS : Flags Q) (paths : Paths)
         (st : TrainState) (w : World) (st' : TrainState) (w' : World),
    ((exists b, train_step FLAGS paths st b w = Returns (st', w'))
     \/ run_epoch FLAGS paths st w = Returns (st', w')
     \/ (exists fuel, epoch_loop fuel FLAGS paths st w = Some (Returns (st', w')))) ->
    (forall best, best_subm_score st = Some best ->
       exists best', best_subm_score st' = Some best' /\ (best <= best')%Q)
    /\ (forall lowest, lowest_dev_loss st = Some lowest ->
          exists lowest', lowest_dev_loss st' = Some lowest' /\ (lowest' <= lowest)%Q).
Proof.
  intros B FLAGS paths st w st' w' H.
  assert (Hrec : records_no_worse st st').
  { destruct H as [(b & H) | [H | (fuel & H)]].
    - eapply train_step_records. exact H.
    - eapply run_epoch_records. exact H.
    - eapply epoch_loop_records. exact H. }
  destruct Hrec as [Hb Hl]. split.
  - intros best E. rewrite E in Hb. exact Hb.
  - intros lowest E. rewrite E in Hl. exact Hl.
Qed.

Lemma early_stopping_records_only_improve_witness :
  on_return
    (@run_epoch Q _ four_steps_backend (toy_flags 1 2) toy_paths
       {| exp_loss := None; best_subm_score := Some 1%Q;
          lowest_dev_loss := Some 1%Q; epoch := 0 |}
       (@QAModel_init Q four_steps_backend (toy_flags 1 2) (0, 0)))
    (fun r =>
       (exists best', best_subm_score (fst r) = Some best' /\ (1 <= best')%Q)
       /\ (exists lowest', lowest_dev_loss (fst r) = Some lowest' /\ (lowest' <= 1)%Q)).
Proof.
  assert (Hret : outcome_map (fun _ => tt)
                   (@run_epoch Q _ four_steps_backend (toy_flags 1 2) toy_paths
                      {| exp_loss := None; best_subm_score := Some 1%Q;
                         lowest_dev_loss := Some 1%Q; epoch := 0 |}
                      (@QAModel_init Q four_steps_backend (toy_flags 1 2) (0, 0)))
                 = Returns tt).
  { reflexivity. }
  destruct (@run_epoch Q _ four_steps_backend (toy_flags 1 2) toy_paths
              {| exp_loss := None; best_subm_score := Some 1%Q;
                 lowest_dev_loss := Some 1%Q; epoch := 0 |}
              (@QAModel_init Q four_steps_backend (toy_flags 1 2) (0, 0)))
    as [[st' w'] | e] eqn:Hrun; [| discriminate Hret].
  destruct (early_stopping_records_only_improve four_steps_backend (toy_flags 1 2)
              toy_paths _ _ st' w' (or_intror (or_introl Hrun))) as [Hb Hl].
  split; [apply (Hb 1%Q eq_refl) | apply (Hl 1%Q eq_refl)].
Defined.

(** ** More on the smoothed loss *)

Section Reseeding.

Context {F : Type} {NumF : Num F}.

Lemma smoothed_from_falsy (zeros : list F) :
  forall (acc : option F) (x : F) (rest : list F),
    py_not acc = true ->
    Forall (fun z => fis_zero z = true) zeros ->
    fold_left update_exp_loss (zeros ++ x :: rest) acc
    = fold_left update_exp_loss rest (Some x).
Proof.
  induction zeros as [| z zeros IH]; intros acc x rest Hacc Hz; simpl.
  - unfold update_exp_loss at 2. rewrite Hacc. reflexivity.
  - inversion Hz as [| ? ? Hz0 Hz']; subst.
    unfold update_exp_loss at 2. rewrite Hacc.
    apply IH; [exact Hz0 | exact Hz'].
Qed.

End Reseeding.

(** X2: zero losses at the start leave no trace.  The guard [not exp_loss]
    holds while the smoothed loss is zero, so as long as every loss so far
    has been zero each new loss replaces the smoothed loss: the smoothed
    loss after a run of zero losses followed by more losses is what it would
    be had the run started at the first loss after the zeros. *)
Theorem smoothed_loss_forgets_leading_zeros :
  forall (F : Type) (NumF : Num F) (zeros : list F) (x : F) (rest : list F),
    Forall (fun z => fis_zero z = true) zeros ->
    smoothed_loss (zeros ++ x :: rest) = smoothed_loss (x :: rest).
Proof.
  intros F NumF zeros x rest Hz. unfold smoothed_loss.
  rewrite (smoothed_from_falsy zeros None x rest eq_refl Hz). reflexivity.
Qed.

Lemma smoothed_loss_forgets_leading_zeros_witness :
  smoothed_loss ([0; 0] ++ [1; 2])%float = smoothed_loss [1; 2]%float.
Proof.
  apply (smoothed_loss_forgets_leading_zeros float _ [0; 0]%float 1%float [2]%float).
  repeat constructor.
Defined.

(** X1: away from zero the smoothed loss is the weighted sum.  Over the
    rationals, on losses that are all positive, the smoothed loss after the
    first loss is that loss; each further loss [x] takes it from [e] to
    [0.99 * e + 0.01 * x]; and after the first loss and [N] further ones it
    equals [0.99^N] times the first loss plus the further losses weighted
    by [0.01 * 0.99^k], [k] counting back from the latest. *)
Theorem smoothed_loss_weighted_sum :
  forall (first : Q) (later : list Q) (x : Q),
    (0 < first)%Q -> Forall (fun l => 0 < l)%Q later -> (0 < x)%Q ->
    smoothed_loss [first] = Some first
    /\ exists e e' : Q,
         smoothed_loss (first :: later) = Some e
         /\ (e == smoothed_closed_form first later)%Q
         /\ smoothed_loss (first :: later ++ [x]) = Some e'
         /\ (e' == (99 # 100) * e + (1 # 100) * x)%Q
         /\ (e' == smoothed_closed_form first (later ++ [x]))%Q.
Proof.
  intros first later x Hfirst Hlater Hx. split; [reflexivity |].
  destruct (smoothed_loss_positive first later Hfirst Hlater) as (e & He & Heq & Hpos).
  assert (Hlater' : Forall (fun l => 0 < l)%Q (later ++ [x])).
  { apply Forall_app. split; [exact Hlater | constructor; [exact Hx | constructor]]. }
  destruct (smoothed_loss_positive first (later ++ [x]) Hfirst Hlater')
    as (e' & He' & Heq' & _).
  exists e, e'. repeat split; try assumption.
  rewrite Heq', smoothed_closed_form_snoc, Heq. reflexivity.
Qed.

Lemma smoothed_loss_weighted_sum_witness :
  exists e e' : Q,
    smoothed_loss [4; 2]%Q = Some e
    /\ (e == smoothed_closed_form 4 [2])%Q
    /\ smoothed_loss (4 :: [2] ++ [1])%Q = Some e'
    /\ (e' == (99 # 100) * e + (1 # 100) * 1)%Q
    /\ (e' == smoothed_closed_form 4 ([2] ++ [1]))%Q.
Proof.
  apply (proj2 (smoothed_loss_weighted_sum 4%Q [2]%Q 1%Q
                  ltac:(reflexivity) ltac:(repeat constructor) ltac:(reflexivity))).
Defined.
